(** * LanguageClient-neovim: document synchronisation and JSON-RPC correlation

    A shallow embedding of [rplugin/python3/LanguageClient/LanguageClient.py]
    together with the two collaborators it imports ([TextDocumentItem] and
    [RPC]), and the properties of the document table, of the diff engine and
    of the request correlator that the specification states.

    Python values are embedded as follows: [str] is [string], [int] is [Z],
    a JSON object is an association list (insertion ordered, as a Python
    dict), [self.textDocuments] is a [gmap] from uri to document, exceptions
    are an explicit outcome of every method. *)

From Stdlib Require Import ZArith Lia String Ascii List Sorted.
From stdpp Require Import base gmap strings list fin_maps.
Import ListNotations.

Local Open Scope string_scope.
Local Open Scope Z_scope.

(** ** Python values crossing the plugin boundary *)

(** What [json.loads] produces and what Neovim hands to a plugin function.
    A JSON number with a fraction or an exponent, which [json.loads] gives
    as a [float], has no counterpart here: what is stated below about a
    number is stated about an [int], and says so in its hypotheses. *)
Unset Elimination Schemes.
Inductive Value : Type :=
| VNone
| VBool (b : bool)
| VInt (n : Z)
| VStr (s : string)
| VList (l : list Value)
| VDict (d : list (string * Value)).
Set Elimination Schemes.

(** The exceptions the embedded code can raise. *)
Inductive Exn : Type :=
| KeyError (key : Value)
| TypeError
| AttributeError (attr : string)
| IndexError
| TransportClosed
| OtherError (what : string).

(** [d[k]] on an insertion-ordered dict. *)
Fixpoint assoc (k : string) (d : list (string * Value)) : option Value :=
  match d with
  | [] => None
  | (k', v) :: d' => if String.eqb k k' then Some v else assoc k d'
  end.

(** [k in message] for a decoded JSON message; only objects have keys. *)
Definition has_key (k : string) (m : Value) : bool :=
  match m with
  | VDict d => match assoc k d with Some _ => true | None => false end
  | _ => false
  end.

Definition field (k : string) (m : Value) : option Value :=
  match m with
  | VDict d => assoc k d
  | _ => None
  end.

(** ** Lines of a text *)

Module Lines.

Definition newline : ascii := ascii_of_nat 10.

(** The lines of a text, each one keeping its terminator; the last line
    has none when the text does not end in a newline. *)
Fixpoint keepends (s : list ascii) : list (list ascii) :=
  match s with
  | [] => []
  | c :: s' =>
      if Ascii.eqb c newline then [c] :: keepends s'
      else match keepends s' with
           | [] => [[c]]
           | l :: ls => (c :: l) :: ls
           end
  end.

(** Number of leading elements two lists share. *)
Fixpoint common_prefix {A : Type} `{EqDecision A} (xs ys : list A) : nat :=
  match xs, ys with
  | x :: xs', y :: ys' =>
      if decide (x = y) then S (common_prefix xs' ys') else O
  | _, _ => O
  end.

(** Number of trailing elements two lists share. *)
Definition common_suffix {A : Type} `{EqDecision A} (xs ys : list A) : nat :=
  common_prefix (rev xs) (rev ys).

(** Character offset of the start of line [n]; past the last line it is
    the end of the text. *)
Definition line_start (ls : list (list ascii)) (n : nat) : nat :=
  length (concat (take n ls)).

End Lines.

(** ** TextDocumentItem *)

Module TextDocumentItem.
Import Lines.

Record Position : Type := { line : nat; character : nat }.
Record Range : Type := { range_start : Position; range_end : Position }.

(** ChangeEvent of the data model: a full replacement carries no range. *)
Inductive ChangeEvent : Type :=
| Full (newText : string)
| Incremental (range : Range) (newText : string).

(** Document of the data model. *)
Record t : Type := {
  uri : string;
  languageId : string;
  version : Z;
  text : string;
}.

(** Modelled from the spec: the constructor of [TextDocumentItem]
    ([TextDocumentItem.py] is not among the verified sources); section 4.4,
    "creates a new Document with version = 1". *)
Definition new (uri languageId text : string) : t :=
  {| uri := uri; languageId := languageId; version := 1; text := text |}.

(** Modelled from the spec: the offset a position of a range denotes in a
    text (the receiving side is not part of the repository); the start of
    its line plus the character, which cannot run past the end of that
    line. *)
Definition offset_at (ls : list (list ascii)) (p : Position) : nat :=
  (line_start ls (line p) + Nat.min (character p) (length (nth (line p) ls [])))%nat.

(** Modelled from the spec: what applying one ChangeEvent to a text means,
    section 3: a full replacement "replaces entire document", an incremental
    event replaces the text of its range by its new text. *)
Definition apply_event (txt : string) (ev : ChangeEvent) : string :=
  match ev with
  | Full newText => newText
  | Incremental r newText =>
      let cs := list_ascii_of_string txt in
      let ls := keepends cs in
      string_of_list_ascii
        (take (offset_at ls (range_start r)) cs
           ++ list_ascii_of_string newText
           ++ drop (offset_at ls (range_end r)) cs)
  end.

Definition apply_events (txt : string) (evs : list ChangeEvent) : string :=
  fold_left apply_event evs txt.

(** Modelled from the spec: the change computation of the Diff Engine
    ([TextDocumentItem.change]; [TextDocumentItem.py] is not among the
    verified sources); section 4.4. A line-granularity diff: the lines the
    two texts share at the front and at the back are kept, the block of
    lines between them is the single contiguous changed region, reported
    as one incremental event from the start of its first line to the end
    of its last line (the start of the line that follows), with the
    replacement lines joined as its text. A previous text without any line
    has nothing to anchor a range on: the full replacement is the
    fallback. *)
Definition diff (previous new : string) : list ChangeEvent :=
  let ol := keepends (list_ascii_of_string previous) in
  let nl := keepends (list_ascii_of_string new) in
  match ol with
  | [] => [Full new]
  | _ :: _ =>
      let p := common_prefix ol nl in
      let s := common_suffix (drop p ol) (drop p nl) in
      let old_mid := (length ol - p - s)%nat in
      let new_mid := take (length nl - p - s)%nat (drop p nl) in
      [Incremental
         {| range_start := {| line := p; character := 0 |};
            range_end := {| line := p + old_mid; character := 0 |} |}
         (string_of_list_ascii (concat new_mid))]
  end.

(** Modelled from the spec: [TextDocumentItem.change], the [applyChange]
    of section 4.4: the events are computed against the stored text, the
    version is bumped by one and the new full text becomes the baseline;
    the new version and the events are returned. A text equal to the stored
    one is treated like any other ("deduplication of no-op edits is the
    caller's responsibility"). *)
Definition change (d : t) (newText : string) : t * (Z * list ChangeEvent) :=
  let changes := diff (text d) newText in
  let d' := {| uri := uri d; languageId := languageId d;
               version := version d + 1; text := newText |} in
  (d', (version d', changes)).

End TextDocumentItem.

(** ** RPC: the message correlator *)

Module RPC.

(** What the correlator does to its collaborators, in order: a pending
    callback invoked with a result, a message handed to the
    request-or-notification handler, a message handed to the error
    handler. *)
Inductive Effect (Handler : Type) : Type :=
| Invoked (id : Z) (callback : Handler) (result : Value)
| Dispatched (message : Value)
| ErrorHandled (message : Value).
Arguments Invoked {Handler} id callback result.
Arguments Dispatched {Handler} message.
Arguments ErrorHandled {Handler} message.

(** Modelled from the spec: the state of the Message Correlator ([RPC.py]
    is not among the verified sources); section 4.2, "a mapping from
    pending request id to callback, a monotonically increasing id counter
    starting at 1", with the frames written so far and the effects on the
    collaborators. *)
Record t (Handler : Type) : Type := {
  pending : gmap Z Handler;
  next_id : Z;
  closed : bool;
  outbound : list Value;
  effects : list (Effect Handler);
}.
Arguments pending {Handler} _.
Arguments next_id {Handler} _.
Arguments closed {Handler} _.
Arguments outbound {Handler} _.
Arguments effects {Handler} _.

Section Correlator.
Context {Handler : Type}.

Definition init : t Handler :=
  {| pending := ∅; next_id := 1; closed := false; outbound := []; effects := [] |}.

Definition request_frame (id : Z) (method : string) (params : Value) : Value :=
  VDict [("jsonrpc", VStr "2.0"); ("id", VInt id);
         ("method", VStr method); ("params", params)].

Definition notification_frame (method : string) (params : Value) : Value :=
  VDict [("jsonrpc", VStr "2.0"); ("method", VStr method); ("params", params)].

(** Modelled from the spec: [call], section 4.2: "allocates the next id,
    stores (id -> callback), writes {jsonrpc, id, method, params}";
    "fails with TransportClosed if the channel is no longer writable; in
    that case the callback is never registered". *)
Definition call (method : string) (params : Value) (callback : Handler)
    (c : t Handler) : (Exn + Z) * t Handler :=
  if closed c then (inl TransportClosed, c)
  else
    let id := next_id c in
    (inr id,
     {| pending := <[id := callback]> (pending c);
        next_id := id + 1;
        closed := closed c;
        outbound := outbound c ++ [request_frame id method params];
        effects := effects c |}).

(** Modelled from the spec: [notify], section 4.2: a frame with no id,
    no pending entry. *)
Definition notify (method : string) (params : Value)
    (c : t Handler) : (Exn + unit) * t Handler :=
  if closed c then (inl TransportClosed, c)
  else
    (inr tt,
     {| pending := pending c;
        next_id := next_id c;
        closed := closed c;
        outbound := outbound c ++ [notification_frame method params];
        effects := effects c |}).

Definition with_effect (e : Effect Handler) (c : t Handler) : t Handler :=
  {| pending := pending c; next_id := next_id c; closed := closed c;
     outbound := outbound c; effects := effects c ++ [e] |}.

Definition discard (id : Z) (c : t Handler) : t Handler :=
  {| pending := delete id (pending c); next_id := next_id c;
     closed := closed c; outbound := outbound c; effects := effects c |}.

(** The pending entry an inbound message matches, if any. *)
Definition matching (message : Value) (c : t Handler) : option (Z * Handler) :=
  match field "id" message with
  | Some (VInt id) =>
      match pending c !! id with
      | Some callback => Some (id, callback)
      | None => None
      end
  | _ => None
  end.

(** Modelled from the spec: [onFrame], section 4.2. A response to a
    pending id pops the callback and invokes it with the result, or is
    routed to the error handler when it carries an error; a message with
    a method and no matching pending id goes to the request-or-
    notification handler; a stray response, an error without id and any
    other shape go to the error handler (section 7, ProtocolError). *)
Definition onFrame (message : Value) (c : t Handler) : t Handler :=
  match matching message c with
  | Some (id, callback) =>
      match field "error" message, field "result" message with
      | Some _, _ => with_effect (ErrorHandled message) (discard id c)
      | None, Some result => with_effect (Invoked id callback result) (discard id c)
      | None, None => with_effect (ErrorHandled message) c
      end
  | None =>
      if has_key "method" message
      then with_effect (Dispatched message) c
      else with_effect (ErrorHandled message) c
  end.

(** Modelled from the spec: closure of the transport, sections 3 and
    4.3: the pending calls are removed without being invoked and the
    channel is no longer writable. *)
Definition close (c : t Handler) : t Handler :=
  {| pending := ∅; next_id := next_id c; closed := true;
     outbound := outbound c; effects := effects c |}.

(** Modelled from the spec: one turn of the Dispatch Loop, section 4.3:
    a decoded frame is classified unless the loop has terminated. *)
Definition dispatch (message : Value) (c : t Handler) : t Handler :=
  if closed c then c else onFrame message c.

(** Everything that can happen to one correlator. *)
Inductive Op : Type :=
| OpCall (method : string) (params : Value) (callback : Handler)
| OpNotify (method : string) (params : Value)
| OpFrame (message : Value)
| OpClose.

(** One operation; the request id when it is a successful [call]. *)
Definition step (op : Op) (c : t Handler) : option Z * t Handler :=
  match op with
  | OpCall method params callback =>
      match call method params callback c with
      | (inr id, c') => (Some id, c')
      | (inl _, c') => (None, c')
      end
  | OpNotify method params => (None, snd (notify method params c))
  | OpFrame message => (None, dispatch message c)
  | OpClose => (None, close c)
  end.

(** A history of operations: the ids [call] returned, in order, and the
    final state. *)
Fixpoint run (ops : list Op) (c : t Handler) : list Z * t Handler :=
  match ops with
  | [] => ([], c)
  | op :: ops' =>
      let '(r, c') := step op c in
      let '(ids, c'') := run ops' c' in
      (match r with Some id => id :: ids | None => ids end, c'')
  end.


End Correlator.
Arguments Op Handler : clear implicits.



(** The [n] consecutive ids from [a] on. *)
Definition ids_from (a : Z) (n : nat) : list Z :=
  map (fun k => a + Z.of_nat k) (seq 0 n).

End RPC.

(** ** LanguageClient *)

Module LanguageClient.

(** [subprocess.Popen] as far as the client looks at it: [poll()] is
    [None] while the process runs, its exit code afterwards. *)
Record Server : Type := { poll : option Z }.

(** What the client registers as callback of a call. *)
Inductive Callback : Type :=
| CbValue (v : Value)
| CbMethod (name : string)
| CbPartial (name : string) (curPos : Value).

(** What the module logger is given. *)
Inductive LogEntry : Type :=
| Info (s : string)
| Warn (s : string)
| Exception (s : string).

(** The editor as one call of the plugin reads it: what [nvim.eval],
    [nvim.current.buffer.name] and the calls of getline, getpos and input
    answer. A read of the editor changes nothing in it and is not entered
    in the queue of [EditorCall]s below. *)
Record Nvim : Type := {
  buffer_name : string;
  filetype : string;
  getline : list string;
  getpos : Z * Z * Z * Z;
  loaded_fzf : Z;
  input : string;
}.

(** What the client has the editor do: the commands it queues, and the
    calls that wait for the user or change the state of the editor
    (inputsave, input, inputrestore, feedkeys). The calls that only read
    (getpos, getline) are answered from [Nvim] and leave no entry. *)
Inductive EditorCall : Type :=
| AsyncCommand (cmds : string)
| NvimCall (name : string).

(** The client object, with the logger and the editor queue it writes to. *)
Record Client : Type := {
  server : option Server;
  capabilities : Value;
  textDocuments : gmap string TextDocumentItem.t;
  serverCommands : list (string * Value);
  rpc : option (RPC.t Callback);
  editor : list EditorCall;
  log : list LogEntry;
}.

(** [__init__]: no server, no document, the server commands as the editor
    has them; [self.rpc] is not set before [start]. *)
Definition init (serverCommands : list (string * Value)) : Client :=
  {| server := None; capabilities := VDict []; textDocuments := ∅;
     serverCommands := serverCommands; rpc := None;
     editor := []; log := [Info "__init__"] |}.

(** The functions imported from [util] and the process id. *)
Class Util : Type := {
  pathToURI : string -> string;
  getRootPath : string -> string;
  escape : string -> string;
  getpid : Z;
}.

(** *** Methods as state transformers that return or raise *)

Inductive Outcome (A : Type) : Type :=
| Return (a : A)
| Raise (e : Exn).
Arguments Return {A} a.
Arguments Raise {A} e.

Definition M (A : Type) : Type := Client -> Outcome A * Client.

Definition ret {A : Type} (a : A) : M A := fun c => (Return a, c).

Definition raise {A : Type} (e : Exn) : M A := fun c => (Raise e, c).

Definition bind {A B : Type} (m : M A) (k : A -> M B) : M B :=
  fun c =>
    match m c with
    | (Return a, c') => k a c'
    | (Raise e, c') => (Raise e, c')
    end.

(** [try: m except: h], with a bare [except]. *)
Definition try_except {A : Type} (m : M A) (h : M A) : M A :=
  fun c =>
    match m c with
    | (Return a, c') => (Return a, c')
    | (Raise _, c') => h c'
    end.

Declare Scope py_scope.
Delimit Scope py_scope with py.
Notation "'let*' x ':=' m 'in' k" := (bind m (fun x => k))
  (at level 10, x name, m at level 100, k at level 200) : py_scope.
Notation "m ';;;' k" := (bind m (fun _ => k))
  (at level 100, k at level 200, right associativity) : py_scope.
Local Open Scope py_scope.

Definition set_textDocuments (d : gmap string TextDocumentItem.t) (c : Client) : Client :=
  {| server := server c; capabilities := capabilities c; textDocuments := d;
     serverCommands := serverCommands c; rpc := rpc c; editor := editor c;
     log := log c |}.

Definition set_rpc (r : RPC.t Callback) (c : Client) : Client :=
  {| server := server c; capabilities := capabilities c;
     textDocuments := textDocuments c; serverCommands := serverCommands c;
     rpc := Some r; editor := editor c; log := log c |}.

Definition logger (e : LogEntry) : M unit :=
  fun c =>
    (Return tt,
     {| server := server c; capabilities := capabilities c;
        textDocuments := textDocuments c; serverCommands := serverCommands c;
        rpc := rpc c; editor := editor c; log := log c ++ [e] |}).

Definition nvim (e : EditorCall) : M unit :=
  fun c =>
    (Return tt,
     {| server := server c; capabilities := capabilities c;
        textDocuments := textDocuments c; serverCommands := serverCommands c;
        rpc := rpc c; editor := editor c ++ [e]; log := log c |}).

(** [self.rpc.call(method, params, cb)]; [self.rpc] exists once [start]
    has created it. *)
Definition rpc_call (method : string) (params : Value) (cb : Callback) : M Value :=
  fun c =>
    match rpc c with
    | None => (Raise (AttributeError "rpc"), c)
    | Some r =>
        match RPC.call method params cb r with
        | (inr id, r') => (Return (VInt id), set_rpc r' c)
        | (inl e, r') => (Raise e, set_rpc r' c)
        end
    end.

(** [self.rpc.notify(method, params)]. *)
Definition rpc_notify (method : string) (params : Value) : M unit :=
  fun c =>
    match rpc c with
    | None => (Raise (AttributeError "rpc"), c)
    | Some r =>
        match RPC.notify method params r with
        | (inr _, r') => (Return tt, set_rpc r' c)
        | (inl e, r') => (Raise e, set_rpc r' c)
        end
    end.

(** *** Python primitives the methods use *)

(** [m[k]] *)
Definition subscript (m : Value) (k : string) : M Value :=
  match m with
  | VDict d =>
      match assoc k d with
      | Some v => ret v
      | None => raise (KeyError (VStr k))
      end
  | _ => raise TypeError
  end.

(** [args.get(k, default)]: the attribute is looked up, then the default
    is evaluated, then the dict is read. *)
Definition dict_get (args : Value) (k : string) (default : M Value) : M Value :=
  match args with
  | VDict d =>
      let* dv := default in
      ret (match assoc k d with Some v => v | None => dv end)
  | _ => raise (AttributeError "get")
  end.

(** [pos[i]] *)
Definition index (pos : list Value) (i : nat) : M Value :=
  match nth_error pos i with
  | Some v => ret v
  | None => raise IndexError
  end.

(** [s.replace(old, new)] for a one-character [old]. *)
Fixpoint replace (old : ascii) (new : string) (s : string) : string :=
  match s with
  | EmptyString => EmptyString
  | String c s' =>
      if Ascii.eqb c old then new ++ replace old new s'
      else String c (replace old new s')
  end.

(** [v.replace(old, new)]; only [str] has the method. *)
Definition str_replace (v : Value) (old : ascii) (new : string) : M string :=
  match v with
  | VStr s => ret (replace old new s)
  | _ => raise (AttributeError "replace")
  end.

(** [for x in v] *)
Definition iterate (v : Value) : M (list Value) :=
  match v with
  | VList l => ret l
  | VDict d => ret (map (fun kv => VStr (fst kv)) d)
  | VStr s => ret (map (fun c => VStr (String c EmptyString)) (list_ascii_of_string s))
  | _ => raise TypeError
  end.

Definition newline : string := String Lines.newline EmptyString.

(** [str.join("", [l + "\n" for l in lines])] *)
Definition buffer_text (lines : list string) : string :=
  String.concat "" (map (fun l => l ++ newline) lines).

Definition is_None (v : Value) : bool :=
  match v with VNone => true | _ => false end.

Definition position_value (p : TextDocumentItem.Position) : Value :=
  VDict [("line", VInt (Z.of_nat (TextDocumentItem.line p)));
         ("character", VInt (Z.of_nat (TextDocumentItem.character p)))].

(** A ChangeEvent as the JSON object of the data model. *)
Definition change_value (ev : TextDocumentItem.ChangeEvent) : Value :=
  match ev with
  | TextDocumentItem.Full newText => VDict [("newText", VStr newText)]
  | TextDocumentItem.Incremental r newText =>
      VDict [("range",
              VDict [("start", position_value (TextDocumentItem.range_start r));
                     ("end", position_value (TextDocumentItem.range_end r))]);
             ("newText", VStr newText)]
  end.

(** [textDocumentItem.__dict__] *)
Definition item_dict (d : TextDocumentItem.t) : Value :=
  VDict [("uri", VStr (TextDocumentItem.uri d));
         ("languageId", VStr (TextDocumentItem.languageId d));
         ("version", VInt (TextDocumentItem.version d));
         ("text", VStr (TextDocumentItem.text d))].

(** *** The methods of the class *)

Section Methods.
Context `{U : Util}.
Variable nv : Nvim.

(** [asyncCommand]: the command is queued on the editor's thread. *)
Definition asyncCommand (cmds : string) : M unit :=
  nvim (AsyncCommand cmds).

(** [asyncEcho]: the escaped message, echoed by the editor. *)
Definition asyncEcho (message : string) : M unit :=
  let message := escape message in
  asyncCommand ("echo '" ++ message ++ "'").

(** [getPos]: line and character of the cursor, counted from 0. The call
    of getpos is a read of the editor: it is answered from [nv] and is not
    entered in the queue of the client. *)
Definition getPos : list Value :=
  let '(_, line, character, _) := getpos nv in
  [VInt (line - 1); VInt (character - 1)].

(** One turn of the loop of [getArgs]: the value for key [k] and the
    cursor position known so far. *)
Definition getArgs_key (args : Value) (k : string) (pos : list Value)
    : M (Value * list Value) :=
  if String.eqb k "uri" then
    let* v := dict_get args "uri" (ret (VStr (pathToURI (buffer_name nv)))) in
    ret (v, pos)
  else if String.eqb k "line" then
    let pos := getPos in
    let* v := dict_get args "line" (index pos 0) in
    ret (v, pos)
  else if String.eqb k "character" then
    let* v := dict_get args "character" (index pos 1) in
    ret (v, pos)
  else
    let* v := dict_get args k (ret VNone) in
    ret (v, pos).

Fixpoint getArgs_loop (args : Value) (keys : list string) (pos : list Value)
    : M (list Value) :=
  match keys with
  | [] => ret []
  | k :: keys' =>
      let* vp := getArgs_key args k pos in
      let* res := getArgs_loop args keys' (snd vp) in
      ret (fst vp :: res)
  end.

(** [getArgs(argsL, keys)]; the callers that pass [{}] for [argsL] are
    the callers with the empty list here, [len] is 0 for both. *)
Definition getArgs (argsL : list Value) (keys : list string) : M (list Value) :=
  let args := match argsL with
              | [] => VDict []
              | a :: _ => a
              end in
  getArgs_loop args keys [].

(** The test of [alive]: there is a server and its [poll()] is [None]. *)
Definition running (c : Client) : bool :=
  match server c with
  | None => false
  | Some s => match poll s with None => true | Some _ => false end
  end.

(** [alive(warn)]: when the server does not run, the user is told so
    unless [warn] is off. *)
Definition alive (warn : bool) : M bool :=
  fun c =>
    if running c then ret true c
    else
      ((if warn
        then asyncEcho "Language client is not running. Try :LanguageClientStart"
        else ret tt) ;;;
       ret false) c.

(** A tuple assignment whose right side has the wrong length. *)
Definition unpack_error {A : Type} : M A := raise (OtherError "ValueError").

Definition initialize (args : list Value) : M unit :=
  let* a := alive true in
  if negb a then ret tt else
  logger (Info "initialize") ;;;
  let* res := getArgs args ["rootPath"; "cb"] in
  match res with
  | [rootPath; cb] =>
      let rootPath := if is_None rootPath
                      then VStr (getRootPath (buffer_name nv)) else rootPath in
      let cb := if is_None cb
                then CbMethod "handleInitializeResponse" else CbValue cb in
      let* rootUri := match rootPath with
                      | VStr p => ret (VStr (pathToURI p))
                      | _ => raise TypeError
                      end in
      let* _ := rpc_call "initialize"
                  (VDict [("processId", VInt getpid);
                          ("rootPath", rootPath);
                          ("rootUri", rootUri);
                          ("capabilities", VDict []);
                          ("trace", VStr "verbose")]) cb in
      ret tt
  | _ => unpack_error
  end.

(** The uri is the one [getArgs] computes from the name of the buffer, a
    [str]: the argument dict is empty. *)
Definition textDocument_didOpen : M unit :=
  let* a := alive false in
  if negb a then ret tt else
  logger (Info "textDocument/didOpen") ;;;
  let languageId := filetype nv in
  fun c =>
    if String.eqb languageId ""
       || negb (bool_decide (is_Some (assoc languageId (serverCommands c))))
    then ret tt c
    else
      (let* res := getArgs [] ["uri"] in
       match res with
       | [VStr uri] =>
           let text := buffer_text (getline nv) in
           let textDocumentItem := TextDocumentItem.new uri languageId text in
           (fun c => ret tt (set_textDocuments
                               (<[uri := textDocumentItem]> (textDocuments c)) c)) ;;;
           rpc_notify "textDocument/didOpen"
             (VDict [("textDocument",
                      VDict [("textDocument", item_dict textDocumentItem)])])
       | [_] => raise TypeError
       | _ => unpack_error
       end) c.

(** [del self.textDocuments[uri]]: the keys of the table are [str]; a
    hashable value that is not a key raises [KeyError], a list or a dict
    is not hashable. *)
Definition del_textDocument (uri : Value) : M unit :=
  fun c =>
    match uri with
    | VStr u =>
        match textDocuments c !! u with
        | Some _ => ret tt (set_textDocuments (delete u (textDocuments c)) c)
        | None => raise (KeyError uri) c
        end
    | VList _ | VDict _ => raise TypeError c
    | _ => raise (KeyError uri) c
    end.

Definition textDocument_didClose (args : list Value) : M unit :=
  let* a := alive true in
  if negb a then ret tt else
  logger (Info "textDocument/didClose") ;;;
  let* res := getArgs args ["uri"] in
  match res with
  | [uri] =>
      del_textDocument uri ;;;
      rpc_notify "textDocument/didClose"
        (VDict [("textDocument", VDict [("uri", uri)])])
  | _ => unpack_error
  end.

Definition position_params (uri line character : Value) : list (string * Value) :=
  [("textDocument", VDict [("uri", uri)]);
   ("position", VDict [("line", line); ("character", character)])].

Definition textDocument_hover (args : list Value) : M unit :=
  let* a := alive true in
  if negb a then ret tt else
  logger (Info "textDocument/hover") ;;;
  let* res := getArgs args ["uri"; "line"; "character"; "cb"] in
  match res with
  | [uri; line; character; cb] =>
      let cb := if is_None cb
                then CbMethod "handleTextDocumentHoverResponse" else CbValue cb in
      let* _ := rpc_call "textDocument/hover"
                  (VDict (position_params uri line character)) cb in
      ret tt
  | _ => unpack_error
  end.

Definition textDocument_definition (args : list Value) : M unit :=
  let* a := alive true in
  if negb a then ret tt else
  logger (Info "textDocument/definition") ;;;
  let* res := getArgs args ["uri"; "line"; "character"; "cb"] in
  match res with
  | [uri; line; character; cb] =>
      let cb := if is_None cb
                then CbMethod "handleTextDocumentDefinitionResponse"
                else CbValue cb in
      let* _ := rpc_call "textDocument/definition"
                  (VDict (position_params uri line character)) cb in
      ret tt
  | _ => unpack_error
  end.

Definition textDocument_rename (args : list Value) : M unit :=
  let* a := alive true in
  if negb a then ret tt else
  logger (Info "textDocument/rename") ;;;
  let* res := getArgs args ["uri"; "line"; "character"; "newName"; "cb"] in
  match res with
  | [uri; line; character; newName; cb] =>
      let* newName :=
        if is_None newName then
          nvim (NvimCall "inputsave") ;;;
          nvim (NvimCall "input") ;;;
          nvim (NvimCall "inputrestore") ;;;
          ret (VStr (input nv))
        else ret newName in
      let cb := if is_None cb
                then CbPartial "handleTextDocumentRenameResponse"
                       (VDict [("line", line); ("character", character);
                               ("uri", uri)])
                else CbValue cb in
      let* _ := rpc_call "textDocument/rename"
                  (VDict (position_params uri line character
                            ++ [("newName", newName)])) cb in
      ret tt
  | _ => unpack_error
  end.

Definition textDocument_documentSymbol (args : list Value) : M unit :=
  let* a := alive true in
  if negb a then ret tt else
  logger (Info "textDocument/documentSymbol") ;;;
  let* res := getArgs args ["uri"; "cb"] in
  match res with
  | [uri; cb] =>
      let* cb :=
        if is_None cb then
          if Z.eqb (loaded_fzf nv) 1
          then ret (CbMethod "handleTextDocumentDocumentSymbolResponse")
          else logger (Warn "FZF not loaded.") ;;; ret (CbValue cb)
        else ret (CbValue cb) in
      let* _ := rpc_call "textDocument/documentSymbol"
                  (VDict [("textDocument", VDict [("uri", uri)])]) cb in
      ret tt
  | _ => unpack_error
  end.

Definition workspace_symbol (args : list Value) : M unit :=
  let* a := alive true in
  if negb a then ret tt else
  logger (Info "workspace/symbol") ;;;
  let* res := getArgs args ["query"; "cb"] in
  match res with
  | [query; cb] =>
      let cb := if is_None cb
                then CbMethod "handleWorkspaceSymbolResponse" else CbValue cb in
      let* _ := rpc_call "workspace/symbol" (VDict [("query", query)]) cb in
      ret tt
  | _ => unpack_error
  end.

(** [self.textDocuments[uri].change(newText)]: the item is changed in
    place, the table holds the changed item. *)
Definition change_textDocument (uri : string) (d : TextDocumentItem.t)
    (newText : string) : M (Z * list TextDocumentItem.ChangeEvent) :=
  fun c =>
    let '(d', r) := TextDocumentItem.change d newText in
    ret r (set_textDocuments (<[uri := d']> (textDocuments c)) c).

(** [uri not in self.textDocuments] holds of every hashable value that is
    not a [str], the keys being [str]. *)
Definition textDocument_didChange : M unit :=
  let* a := alive false in
  if negb a then ret tt else
  logger (Info "textDocument/didChange") ;;;
  let* res := getArgs [] ["uri"] in
  match res with
  | [VStr uri] =>
      fun c =>
        match textDocuments c !! uri with
        | None => ret tt c
        | Some d =>
            let newText := buffer_text (getline nv) in
            (let* vc := change_textDocument uri d newText in
             rpc_notify "textDocument/didChange"
               (VDict [("textDocument",
                        VDict [("uri", VStr uri); ("version", VInt (fst vc))]);
                       ("contentChanges", VList (map change_value (snd vc)))])) c
        end
  | [VList _] | [VDict _] => raise TypeError
  | [_] => ret tt
  | _ => unpack_error
  end.

Definition textDocument_autocmdTextChanged : M unit := textDocument_didChange.

Definition textDocument_autocmdTextChangedI : M unit := textDocument_didChange.

Definition textDocument_didSave : M unit :=
  let* a := alive false in
  if negb a then ret tt else
  logger (Info "textDocument/didSave") ;;;
  let* res := getArgs [] ["uri"] in
  match res with
  | [uri] =>
      rpc_notify "textDocument/didSave"
        (VDict [("textDocument", VDict [("uri", uri)])])
  | _ => unpack_error
  end.

Definition textDocument_completion (args : list Value) : M Value :=
  let* a := alive true in
  if negb a then ret (VList []) else
  logger (Info "textDocument/completion") ;;;
  let* res := getArgs args ["uri"; "line"; "character"] in
  match res with
  | [uri; line; character] =>
      rpc_call "textDocument/completion"
        (VDict (position_params uri line character)) (CbValue VNone)
  | _ => unpack_error
  end.

Definition exit (args : list Value) : M unit :=
  let* a := alive true in
  if negb a then ret tt else
  logger (Info "exit") ;;;
  rpc_notify "exit" (VDict []).

Fixpoint publish (diagnostics : list Value) : M unit :=
  match diagnostics with
  | [] => ret tt
  | diagnostic :: rest =>
      let* m := subscript diagnostic "message" in
      let* message := str_replace m Lines.newline ". " in
      asyncEcho message ;;;
      publish rest
  end.

Definition textDocument_publishDiagnostics (params : Value) : M unit :=
  let* ds := subscript params "diagnostics" in
  let* diagnostics := iterate ds in
  publish diagnostics.

(** [hasattr(self, name)] and [getattr(self, name)(params)]: what the
    client object has under a name, as the effect of calling it with one
    argument; [None] when the object has no such attribute. *)
Variable attribute : string -> option (Value -> M unit).

Definition handleRequestOrNotification (message : Value) : M unit :=
  let* m := subscript message "method" in
  let* method := str_replace m "/" "_" in
  match attribute method with
  | Some handler =>
      try_except
        (let* params := subscript message "params" in handler params)
        (logger (Exception "Exception in handle."))
  | None => logger (Warn ("no handler implemented for " ++ method))
  end.

End Methods.

(** A call that went no further than its [alive] check: it returned [a],
    and the correlator, the document table and the log are as before. *)
Definition gated {A : Type} (a : A) (c : Client) (r : Outcome A * Client) : Prop :=
  fst r = Return a
  ∧ rpc (snd r) = rpc c
  ∧ textDocuments (snd r) = textDocuments c
  ∧ log (snd r) = log c.

(** The client after the editor has reported the given buffer states as
    changed, one after the other. *)
Definition did_changes `{U : Util} (nvs : list Nvim) (c : Client) : Client :=
  fold_left (fun c nv => snd (textDocument_didChange nv c)) nvs c.

End LanguageClient.

(** ** Sample data *)

Module Sample.
Import LanguageClient.

(** The two texts of the document lifecycle scenario: a, b and a, X, each
    line with its terminator. *)
Definition text_ab : string := buffer_text ["a"; "b"].

Definition text_aX : string := buffer_text ["a"; "X"].

Definition util : Util :=
  {| pathToURI := fun p => "file://" ++ p;
     getRootPath := fun p => p;
     escape := fun m => m;
     getpid := 4242 |}.

(** A buffer /a.py of filetype python holding a, X. *)
Definition nv : Nvim :=
  {| buffer_name := "/a.py"; filetype := "python"; getline := ["a"; "X"];
     getpos := (0, 1, 1, 0); loaded_fzf := 0; input := "renamed" |}.

(** A client whose server has not been started. *)
Definition stopped : Client := init [("python", VList [VStr "pyls"])].

(** A client with a running server and a fresh correlator. *)
Definition started : Client :=
  {| server := Some {| poll := None |}; capabilities := VDict [];
     textDocuments := ∅;
     serverCommands := [("python", VList [VStr "pyls"])];
     rpc := Some RPC.init; editor := []; log := [] |}.

(** The same client tracking /a.py at some later version. *)
Definition tracking : Client :=
  set_textDocuments
    {[ "file:///a.py" :=
         {| TextDocumentItem.uri := "file:///a.py";
            TextDocumentItem.languageId := "python";
            TextDocumentItem.version := 5;
            TextDocumentItem.text := text_ab |} ]}
    started.

(** A client tracking /a.py whose server has exited with code 1. *)
Definition exited : Client :=
  {| server := Some {| poll := Some 1 |}; capabilities := VDict [];
     textDocuments := textDocuments tracking;
     serverCommands := serverCommands tracking;
     rpc := rpc tracking; editor := []; log := [] |}.

(** The same buffer before the edit, holding a, b. *)
Definition nv0 : Nvim :=
  {| buffer_name := "/a.py"; filetype := "python"; getline := ["a"; "b"];
     getpos := (0, 1, 1, 0); loaded_fzf := 0; input := "renamed" |}.

(** The same buffer one edit later. *)
Definition nv' : Nvim :=
  {| buffer_name := "/a.py"; filetype := "python"; getline := ["a"; "X"; "c"];
     getpos := (0, 3, 1, 0); loaded_fzf := 0; input := "renamed" |}.

(** The document that [tracking] holds. *)
Definition tracked : TextDocumentItem.t :=
  {| TextDocumentItem.uri := "file:///a.py";
     TextDocumentItem.languageId := "python";
     TextDocumentItem.version := 5;
     TextDocumentItem.text := text_ab |}.

(** Three of the attributes of the client object, as [getattr] finds them:
    the handler of the diagnostics notification, a method that takes no
    argument, a data attribute. The table is not the whole of the object:
    the other methods of the class are left out of it, and the scenarios
    below look up none of them. *)
Definition attributes (name : string) : option (Value -> M unit) :=
  if String.eqb name "textDocument_publishDiagnostics"
  then Some (@textDocument_publishDiagnostics util)
  else if String.eqb name "textDocument_didOpen" then Some (fun _ => raise TypeError)
  else if String.eqb name "capabilities" then Some (fun _ => raise TypeError)
  else None.

(** A diagnostics notification whose second diagnostic has no message. *)
Definition diagnostics : list (string * Value) :=
  [("jsonrpc", VStr "2.0");
   ("method", VStr "textDocument/publishDiagnostics");
   ("params",
    VDict [("uri", VStr "file:///a.py");
           ("diagnostics",
            VList [VDict [("message", VStr "unused variable")];
                   VDict [("severity", VInt 1)]])])].




End Sample.

From Stdlib Require Import DecimalString DecimalZ.

(** ** Reading the client's methods *)

Module Args.
Import LanguageClient.

(** What [getArgs] answers for a key the caller did not give: the uri of
    the buffer, the cursor, or [None]. *)
Definition default_arg `{U : Util} (nv : Nvim) (k : string) : Value :=
  let '(_, line, character, _) := getpos nv in
  if String.eqb k "uri" then VStr (pathToURI (buffer_name nv))
  else if String.eqb k "line" then VInt (line - 1)
  else if String.eqb k "character" then VInt (character - 1)
  else VNone.

(** The value of key [k] for a caller that gave the dict [d]. *)
Definition arg_value `{U : Util} (nv : Nvim) (d : list (string * Value))
    (k : string) : Value :=
  match assoc k d with
  | Some v => v
  | None => default_arg nv k
  end.

(** Whether every key [character] comes after a key [line]; [seen] tells
    whether a [line] came before the keys at hand. *)
Fixpoint line_first (seen : bool) (keys : list string) : bool :=
  match keys with
  | [] => true
  | k :: keys' =>
      if String.eqb k "uri" then line_first seen keys'
      else if String.eqb k "line" then line_first true keys'
      else if String.eqb k "character" then seen && line_first seen keys'
      else line_first seen keys'
  end.

(** The argument dict of a call: the first argument, the empty dict when
    there is none. *)
Definition first_arg (argsL : list Value) : Value :=
  match argsL with
  | [] => VDict []
  | a :: _ => a
  end.

Definition is_dict (v : Value) : bool :=
  match v with VDict _ => true | _ => false end.

End Args.

Module Frame.
Import LanguageClient.

(** A part [f] of the client that logging, queueing an editor call and
    replacing the correlator do not touch. *)
Definition stable {B : Type} (f : Client -> B) : Prop :=
  (∀ e c, f (snd (logger e c)) = f c)
  ∧ (∀ e c, f (snd (nvim e c)) = f c)
  ∧ (∀ r c, f (set_rpc r c) = f c).

(** The method [m] leaves the part [f] of the client as it was, whether it
    returns or raises. *)
Definition keeps {A B : Type} (f : Client -> B) (m : M A) : Prop :=
  ∀ c, f (snd (m c)) = f c.

(** The method [m] does not look at the document table: with another
    table in the client it returns the same and does the same to the rest
    of the client. *)
Definition ignores_documents {A : Type} (m : M A) : Prop :=
  ∀ d c, m (set_textDocuments d c)
         = (fst (m c), set_textDocuments d (snd (m c))).

(** The method [m] has no effect when it raises: the client is then as it
    was before the call. *)
Definition atomic {A : Type} (m : M A) : Prop :=
  ∀ c e, fst (m c) = Raise e → snd (m c) = c.

(** The client with further calls in the editor queue. *)
Definition queued (calls : list EditorCall) (c : Client) : Client :=
  {| server := server c; capabilities := capabilities c;
     textDocuments := textDocuments c; serverCommands := serverCommands c;
     rpc := rpc c; editor := editor c ++ calls; log := log c |}.

(** The server, its commands and its capabilities. *)
Definition settings (c : Client) : option Server * list (string * Value) * Value :=
  (server c, serverCommands c, capabilities c).

End Frame.

(** ** The response handlers *)

Module Responses.
Import LanguageClient.
Local Open Scope py_scope.

(** [str(n)] of an [int]: its decimal digits, after a minus sign when it
    is negative. *)
Definition decimal (n : Z) : string := NilZero.string_of_int (Z.to_int n).

(** What the handlers take from Python and from [util] without this
    development looking into it: [uriToPath] of a value (with what it
    raises), the text [format] makes of a value, [int] of a [str]
    ([None] when it raises [ValueError]), which reads back the decimal
    digits [str] writes, and [json.dumps]. *)
Class Runtime : Type := {
  uriToPath : Value -> Exn + string;
  format : Value -> string;
  int : string -> option Z;
  int_decimal : ∀ n, int (decimal n) = Some n;
  dumps : Value -> string;
}.

Definition set_capabilities (v : Value) (c : Client) : Client :=
  {| server := server c; capabilities := v; textDocuments := textDocuments c;
     serverCommands := serverCommands c; rpc := rpc c; editor := editor c;
     log := log c |}.

(** [len(v)] *)
Definition len (v : Value) : M nat :=
  match v with
  | VList l => ret (length l)
  | VDict d => ret (length d)
  | VStr s => ret (String.length s)
  | _ => raise TypeError
  end.

(** [v[0]]; the keys of a dict are [str], 0 is none of them. *)
Definition first (v : Value) : M Value :=
  match v with
  | VList [] => raise IndexError
  | VList (x :: _) => ret x
  | VStr EmptyString => raise IndexError
  | VStr (String a _) => ret (VStr (String a EmptyString))
  | VDict _ => raise (KeyError (VInt 0))
  | _ => raise TypeError
  end.

(** [v + 1]; [bool] is an [int]. *)
Definition add1 (v : Value) : M Z :=
  match v with
  | VInt n => ret (n + 1)
  | VBool b => ret ((if b then 1 else 0) + 1)
  | _ => raise TypeError
  end.

(** [value += x] for a [str] [value]. *)
Definition str_add (value : string) (x : Value) : M string :=
  match x with
  | VStr s => ret (value ++ s)
  | _ => raise TypeError
  end.

(** [s.split(sep)] for a one-character [sep]: the pieces between the
    separators, one more than there are separators. *)
Fixpoint split (sep : ascii) (s : string) : list string :=
  match s with
  | EmptyString => [EmptyString]
  | String a s' =>
      if Ascii.eqb a sep then EmptyString :: split sep s'
      else match split sep s' with
           | [] => [String a EmptyString]
           | piece :: pieces => String a piece :: pieces
           end
  end.

(** ["normal! {}G{}|".format(line, character)] *)
Definition goto (line character : Z) : string :=
  "normal! " ++ decimal line ++ "G" ++ decimal character ++ "|".

Definition tab : string := String (ascii_of_nat 9) EmptyString.

(** The message of a diagnostic that has one, a [str]. *)
Definition diagnostic_text (v : Value) : option string :=
  match field "message" v with
  | Some (VStr s) => Some s
  | _ => None
  end.

(** The editor call that echoes a diagnostic message. *)
Definition echoed `{U : Util} (message : string) : EditorCall :=
  AsyncCommand ("echo '" ++ escape (replace Lines.newline ". " message) ++ "'").

(** A marked string and its text: a [str], or a dict whose [value] is a
    [str]. *)
Definition marked (v : Value) (text : string) : Prop :=
  v = VStr text ∨ ∃ d, v = VDict d ∧ assoc "value" d = Some (VStr text).

Definition is_list (v : Value) : bool :=
  match v with VList _ => true | _ => false end.

Section Handlers.
Context `{U : Util} `{R : Runtime}.

Definition path_of (uri : Value) : M string :=
  match uriToPath uri with
  | inr path => ret path
  | inl e => raise e
  end.

Definition handleInitializeResponse (result : Value) : M unit :=
  let* capabilities := subscript result "capabilities" in
  (fun c => ret tt (set_capabilities capabilities c)) ;;;
  asyncEcho "LanguageClient initialization finished.".

Definition markedStringToString (s : Value) : M Value :=
  match s with
  | VStr _ => ret s
  | _ => subscript s "value"
  end.

(** The loop of the hover handler over a list of marked strings. *)
Fixpoint hover_value (value : string) (contents : list Value) : M string :=
  match contents with
  | [] => ret value
  | markedString :: rest =>
      let* x := markedStringToString markedString in
      let* value := str_add value x in
      hover_value value rest
  end.

Definition handleTextDocumentHoverResponse (result : Value) : M unit :=
  let* contents := subscript result "contents" in
  let value := "" in
  let* value :=
    match contents with
    | VList _ =>
        let* again := subscript result "contents" in
        let* l := iterate again in
        hover_value value l
    | _ =>
        let* x := markedStringToString contents in
        str_add value x
    end in
  asyncEcho value.

(** [v['range']['start']], then its line and its character, each plus 1. *)
Definition start_position (v : Value) : M (Z * Z) :=
  let* range := subscript v "range" in
  let* start := subscript range "start" in
  let* l := subscript start "line" in
  let* line := add1 l in
  let* range := subscript v "range" in
  let* start := subscript range "start" in
  let* ch := subscript start "character" in
  let* character := add1 ch in
  ret (line, character).

Definition handleTextDocumentDefinitionResponse (result : Value) : M unit :=
  let* n := len result in
  (if (1 <? n)%nat
   then logger (Warn "Handling multiple definition are not implemented yet.")
   else ret tt) ;;;
  let* defn := first result in
  let* uri := subscript defn "uri" in
  let* path := path_of uri in
  asyncCommand ("edit " ++ path) ;;;
  let* lc := start_position defn in
  asyncCommand (goto (fst lc) (snd lc)).

(** One edit of [applyChanges]. *)
Definition apply_edit (edit : Value) : M unit :=
  let* lc := start_position edit in
  let* newText := subscript edit "newText" in
  asyncCommand ("normal! " ++ decimal (fst lc) ++ "G" ++ decimal (snd lc)
                  ++ "|cw" ++ format newText).

Fixpoint apply_edits (edits : list Value) : M unit :=
  match edits with
  | [] => ret tt
  | edit :: rest => apply_edit edit ;;; apply_edits rest
  end.

(** The loop of [applyChanges] over [changes.items()]. *)
Fixpoint apply_files (changes : list (string * Value)) : M unit :=
  match changes with
  | [] => ret tt
  | (uri, edits) :: rest =>
      let* path := path_of (VStr uri) in
      asyncCommand ("edit " ++ path) ;;;
      let* l := iterate edits in
      apply_edits l ;;;
      apply_files rest
  end.

(** [applyChanges]; the [time.sleep] between the edits and the way back
    does nothing to the client. *)
Definition applyChanges (changes curPos : Value) : M unit :=
  (match changes with
   | VDict d => apply_files d
   | _ => raise (AttributeError "items")
   end) ;;;
  let* uri := subscript curPos "uri" in
  let* path := path_of uri in
  asyncCommand ("buffer " ++ path) ;;;
  let* l := subscript curPos "line" in
  let* line := add1 l in
  let* ch := subscript curPos "character" in
  let* character := add1 ch in
  asyncCommand (goto line character).

Definition handleTextDocumentRenameResponse (result curPos : Value) : M unit :=
  let* changes := subscript result "changes" in
  applyChanges changes curPos.

(** The entry the symbol handler makes of one symbol. *)
Definition symbol_entry (sb : Value) : M string :=
  let* name := subscript sb "name" in
  let* location := subscript sb "location" in
  let* range := subscript location "range" in
  let* start := subscript range "start" in
  let* l := subscript start "line" in
  let* line := add1 l in
  let* ch := subscript start "character" in
  let* character := add1 ch in
  ret (decimal line ++ ":" ++ decimal character ++ ":" ++ tab ++ format name).

Fixpoint symbol_entries (symbols : list Value) : M (list string) :=
  match symbols with
  | [] => ret []
  | sb :: rest =>
      let* entry := symbol_entry sb in
      let* source := symbol_entries rest in
      ret (entry :: source)
  end.

Definition handleTextDocumentDocumentSymbolResponse (symbols : Value) : M unit :=
  let* l := iterate symbols in
  let* source := symbol_entries l in
  asyncCommand ("call fzf#run(fzf#wrap({    'source': "
                  ++ dumps (VList (map VStr source))
                  ++ ",    'sink': function('LanguageClient#FZFSinkDocumentSymbol')    }))") ;;;
  nvim (NvimCall "feedkeys").

Definition fzfSink (args : list Value) : M unit :=
  let* a := index args 0 in
  let* splitted := match a with
                   | VStr s => ret (split ":" s)
                   | _ => raise (AttributeError "split")
                   end in
  let int_of (piece : string) : M Z :=
    match int piece with
    | Some n => ret n
    | None => raise (OtherError "ValueError")
    end in
  let* s0 := match nth_error splitted 0 with
             | Some p => ret p
             | None => raise IndexError
             end in
  let* line := int_of s0 in
  let* s1 := match nth_error splitted 1 with
             | Some p => ret p
             | None => raise IndexError
             end in
  let* character := int_of s1 in
  asyncCommand (goto line character).

Definition handleWorkspaceSymbolResponse (result : Value) : M unit :=
  let* n := len result in
  asyncEcho (decimal (Z.of_nat n) ++ " symbols").

Definition handleError (message : Value) : M unit :=
  asyncEcho (dumps message).

End Handlers.

End Responses.

(** ** Starting the server *)

Module Startup.
Import LanguageClient.
Local Open Scope py_scope.

Definition set_server (s : Server) (c : Client) : Client :=
  {| server := Some s; capabilities := capabilities c;
     textDocuments := textDocuments c; serverCommands := serverCommands c;
     rpc := rpc c; editor := editor c; log := log c |}.

(** What [subprocess.Popen] gives for a command: the name of what it
    raises ([OSError], [ValueError], ...), or the process as [poll()] finds
    it after the wait of a tenth of a second, with the text [format] makes
    of the lines of its stderr. *)
Definition Spawn : Type := Value -> string + (Server * string).

Section Start.
Context `{U : Util}.
Variable nv : Nvim.
Variable Popen : Spawn.

(** [start]; the thread that serves the correlator is not part of the
    client's state. *)
Definition start : M unit :=
  let* a := alive false in
  if a then asyncEcho "Language client has already started." else
  logger (Info "start") ;;;
  let filetype := filetype nv in
  fun c =>
    match (if String.eqb filetype "" then None
           else assoc filetype (serverCommands c)) with
    | None =>
        asyncEcho ("No language server commmand found for type: "
                     ++ filetype ++ ".") c
    | Some command =>
        match Popen command with
        | inl what => raise (OtherError what) c
        | inr (server, stderr) =>
            ((fun c => ret tt (set_server server c)) ;;;
             let* a := alive false in
             if negb a then asyncEcho ("Failed to start server. " ++ stderr)
             else
               (fun c => ret tt (set_rpc RPC.init c)) ;;;
               initialize nv [] ;;;
               textDocument_didOpen nv) c
        end
    end.

End Start.

(** What happens to a client, one thing after the other: a call of one of
    its methods by the editor, or the exit of the server process. *)
Inductive Event : Type :=
| Start (nv : Nvim) (Popen : Spawn)
| Initialize (nv : Nvim) (args : list Value)
| DidOpen (nv : Nvim)
| DidChange (nv : Nvim)
| DidSave (nv : Nvim)
| DidClose (nv : Nvim) (args : list Value)
| Hover (nv : Nvim) (args : list Value)
| FindDefinition (nv : Nvim) (args : list Value)
| Rename (nv : Nvim) (args : list Value)
| DocumentSymbol (nv : Nvim) (args : list Value)
| WorkspaceSymbol (nv : Nvim) (args : list Value)
| Completion (nv : Nvim) (args : list Value)
| Exit (args : list Value)
| ServerExits (code : Z).

Definition forget {A : Type} (r : Outcome A * Client) : option Exn * Client :=
  (match fst r with Return _ => None | Raise e => Some e end, snd r).

(** The exception an event ends with, if any, and the client after it. *)
Definition happen `{U : Util} (ev : Event) (c : Client) : option Exn * Client :=
  match ev with
  | Start nv Popen => forget (start nv Popen c)
  | Initialize nv args => forget (initialize nv args c)
  | DidOpen nv => forget (textDocument_didOpen nv c)
  | DidChange nv => forget (textDocument_didChange nv c)
  | DidSave nv => forget (textDocument_didSave nv c)
  | DidClose nv args => forget (textDocument_didClose nv args c)
  | Hover nv args => forget (textDocument_hover nv args c)
  | FindDefinition nv args => forget (textDocument_definition nv args c)
  | Rename nv args => forget (textDocument_rename nv args c)
  | DocumentSymbol nv args => forget (textDocument_documentSymbol nv args c)
  | WorkspaceSymbol nv args => forget (workspace_symbol nv args c)
  | Completion nv args => forget (textDocument_completion nv args c)
  | Exit args => forget (exit args c)
  | ServerExits code =>
      (None, if running c then set_server {| poll := Some code |} c else c)
  end.

(** A history of events: the exceptions raised, in order, and the client
    at the end. *)
Fixpoint history `{U : Util} (evs : list Event) (c : Client) : list Exn * Client :=
  match evs with
  | [] => ([], c)
  | ev :: evs' =>
      let '(e, c') := happen ev c in
      let '(es, c'') := history evs' c' in
      (match e with Some x => x :: es | None => es end, c'')
  end.

(** A client that runs has its correlator. *)
Definition connected (c : Client) : Prop :=
  running c = true → is_Some (rpc c).

(** A client that runs and has its correlator. *)
Definition ready (c : Client) : Prop :=
  running c = true ∧ is_Some (rpc c).

(** From a ready client, [m] leaves a ready client and does not fail for
    want of [self.rpc]. *)
Definition finds_rpc {A : Type} (m : M A) : Prop :=
  ∀ c, ready c →
       ready (snd (m c)) ∧ fst (m c) ≠ Raise (AttributeError "rpc").

End Startup.

(** ** Sample data for the handlers *)

Module Examples.
Import LanguageClient Responses.

(** A runtime that is enough to run the handlers: paths are uris as they
    are, only a [str] is formatted, [int] reads decimal digits. *)
Definition runtime : Runtime.
Proof.
  refine {| uriToPath := fun v => match v with
                                  | VStr s => inr s
                                  | _ => inl TypeError
                                  end;
            format := fun v => match v with VStr s => s | _ => EmptyString end;
            int := fun s => option_map Z.of_int (NilZero.int_of_string s);
            dumps := fun _ => "[]"%string |}.
  intros n. unfold decimal. rewrite NilZero.isi.
  - simpl. f_equal. apply DecimalZ.of_to.
  - destruct n; simpl; try discriminate.
    intros [= H]. now apply DecimalPos.Unsigned.to_uint_nonnil in H.
  - destruct n; simpl; try discriminate.
    intros [= H]. now apply DecimalPos.Unsigned.to_uint_nonnil in H.
Defined.

Definition position (line character : Z) : Value :=
  VDict [("line", VInt line); ("character", VInt character)].

Definition location (uri : string) (line character : Z) : Value :=
  VDict [("uri", VStr uri);
         ("range", VDict [("start", position line character);
                          ("end", position line (character + 1))])].

(** A symbol whose name has colons in it, at line 41, character 7. *)
Definition symbol : Value :=
  VDict [("name", VStr "std::vector"); ("kind", VInt 5);
         ("location", location "file:///a.py" 41 7)].

(** A buffer /a.py with the cursor at line 42, character 8. *)
Definition nv : Nvim :=
  {| buffer_name := "/a.py"; filetype := "python"; getline := ["a"; "X"];
     getpos := (0, 42, 8, 0); loaded_fzf := 1; input := "renamed" |}.

(** A hover result with a plain string and a marked one. *)
Definition hover : list (string * Value) :=
  [("contents",
    VList [VStr "def f";
           VDict [("language", VStr "python"); ("value", VStr "(x)")]])].

(** The changes of a rename in one file, and the position to come back
    to. *)
Definition changes : Value :=
  VDict [("file:///b.py",
          VList [VDict [("range",
                         VDict [("start", position 2 4); ("end", position 2 7)]);
                        ("newText", VStr "bar")]])].

Definition curPos : Value :=
  VDict [("line", VInt 41); ("character", VInt 7); ("uri", VStr "file:///a.py")].

(** Two diagnostics, the second without a message. *)
Definition diagnostics : list (string * Value) :=
  [("uri", VStr "file:///a.py");
   ("diagnostics",
    VList [VDict [("message", VStr "unused variable")];
           VDict [("severity", VInt 1)]])].

(** A process that stays alive, and one that has exited with code 1 when
    the client looks at it. *)
Definition lives : Startup.Spawn :=
  fun _ => inr ({| poll := None |}, "[]"%string).

Definition dies : Startup.Spawn :=
  fun _ => inr ({| poll := Some 1 |}, "['no such file']"%string).

End Examples.

(** * Properties *)

Local Open Scope list_scope.

(** ** Lines, shared prefixes and suffixes *)

Section LinesFacts.
Import Lines.

Lemma concat_keepends (s : list ascii) : concat (keepends s) = s.
Proof.
  induction s as [|c s IH]; simpl; [reflexivity|].
  destruct (Ascii.eqb c newline); simpl.
  - now rewrite IH.
  - destruct (keepends s) as [|l ls]; simpl in *; now rewrite <- IH.
Qed.

Context {A : Type} `{EqDecision A}.

Lemma common_prefix_take (xs ys : list A) :
  take (common_prefix xs ys) xs = take (common_prefix xs ys) ys.
Proof.
  revert ys; induction xs as [|x xs IH]; intros [|y ys]; simpl; try reflexivity.
  destruct (decide (x = y)) as [->|]; simpl; [|reflexivity].
  now rewrite IH.
Qed.

Lemma common_prefix_le (xs ys : list A) :
  (common_prefix xs ys ≤ length xs ∧ common_prefix xs ys ≤ length ys)%nat.
Proof.
  revert ys; induction xs as [|x xs IH]; intros [|y ys]; simpl; try lia.
  destruct (decide (x = y)); simpl; [|lia].
  specialize (IH ys); lia.
Qed.

Lemma common_prefix_app (pre xs ys : list A) :
  common_prefix (pre ++ xs) (pre ++ ys) = (length pre + common_prefix xs ys)%nat.
Proof.
  induction pre as [|a pre IH]; simpl; [reflexivity|].
  destruct (decide (a = a)); [|congruence]. now rewrite IH.
Qed.

Lemma common_prefix_differ (x y : A) (xs ys : list A) :
  x ≠ y → common_prefix (x :: xs) (y :: ys) = O.
Proof. intros Hne; simpl. destruct (decide (x = y)); [contradiction|reflexivity]. Qed.

Lemma common_suffix_le (xs ys : list A) :
  (common_suffix xs ys ≤ length xs ∧ common_suffix xs ys ≤ length ys)%nat.
Proof.
  unfold common_suffix.
  pose proof (common_prefix_le (rev xs) (rev ys)) as H.
  now rewrite !length_rev in H.
Qed.

Lemma common_suffix_drop (xs ys : list A) :
  drop (length xs - common_suffix xs ys) xs
  = drop (length ys - common_suffix xs ys) ys.
Proof.
  unfold common_suffix.
  pose proof (common_prefix_take (rev xs) (rev ys)) as H.
  rewrite !firstn_rev in H.
  apply (f_equal (@rev A)) in H. now rewrite !rev_involutive in H.
Qed.

Lemma common_suffix_app (suf xs ys : list A) :
  common_suffix (xs ++ suf) (ys ++ suf) = (length suf + common_suffix xs ys)%nat.
Proof.
  unfold common_suffix. rewrite !rev_app_distr, common_prefix_app.
  now rewrite length_rev.
Qed.

(** The second list is the first one with the block between the shared
    front and the shared back replaced. *)
Lemma splice (xs ys : list A) :
  let p := common_prefix xs ys in
  let s := common_suffix (drop p xs) (drop p ys) in
  ys = take p xs
         ++ take (length ys - p - s) (drop p ys)
         ++ drop (p + (length xs - p - s)) xs.
Proof.
  intros p s.
  pose proof (common_suffix_drop (drop p xs) (drop p ys)) as Hs.
  fold s in Hs. rewrite !length_drop in Hs.
  rewrite <- drop_drop, Hs.
  unfold p at 1. rewrite common_prefix_take. fold p.
  now rewrite !take_drop.
Qed.

End LinesFacts.

Section ConcatFacts.
Context {A : Type}.

Lemma take_line_start (ls : list (list A)) (n : nat) :
  take (length (concat (take n ls))) (concat ls) = concat (take n ls).
Proof.
  rewrite <- (take_drop n ls) at 2.
  rewrite concat_app. apply take_app_length.
Qed.

Lemma drop_line_start (ls : list (list A)) (n : nat) :
  drop (length (concat (take n ls))) (concat ls) = concat (drop n ls).
Proof.
  rewrite <- (take_drop n ls) at 2.
  rewrite concat_app. apply drop_app_length.
Qed.

End ConcatFacts.

(** ** The diff engine *)

Section DiffFacts.
Import Lines TextDocumentItem.

(** On character lists: cutting the previous text at the two line starts
    the diff reports and putting the replacement lines in between gives
    the new text. *)
Lemma splice_text (cs ns : list ascii) :
  let ol := keepends cs in
  let nl := keepends ns in
  let p := common_prefix ol nl in
  let s := common_suffix (drop p ol) (drop p nl) in
  take (line_start ol p) cs
    ++ concat (take (length nl - p - s) (drop p nl))
    ++ drop (line_start ol (p + (length ol - p - s))) cs
  = ns.
Proof.
  intros ol nl p s. unfold line_start.
  pose proof (concat_keepends cs) as Hcs. fold ol in Hcs.
  rewrite <- Hcs at 1 2.
  rewrite take_line_start, drop_line_start, <- !concat_app.
  unfold s, p. rewrite <- splice. apply concat_keepends.
Qed.

Lemma offset_at_line_start (ls : list (list ascii)) (n : nat) :
  offset_at ls {| line := n; character := 0 |} = line_start ls n.
Proof. unfold offset_at; simpl. lia. Qed.

Lemma diff_reconstructs (previous new : string) :
  apply_events previous (diff previous new) = new.
Proof.
  unfold diff.
  destruct (keepends (list_ascii_of_string previous)) as [|l0 ls0] eqn:Hol;
    [reflexivity|].
  rewrite <- Hol. unfold apply_events, apply_event. simpl fold_left.
  cbv zeta. simpl range_start. simpl range_end.
  rewrite !offset_at_line_start, list_ascii_of_string_of_list_ascii.
  rewrite splice_text. apply string_of_list_ascii_of_string.
Qed.

(** A single changed line: the diff is one incremental event over that
    line. *)
Lemma diff_single_line (pre suf : list (list ascii)) (l l' : list ascii)
    (previous new : string) :
  keepends (list_ascii_of_string previous) = pre ++ l :: suf →
  keepends (list_ascii_of_string new) = pre ++ l' :: suf →
  l ≠ l' →
  diff previous new
  = [Incremental
       {| range_start := {| line := length pre; character := 0 |};
          range_end := {| line := length pre + 1; character := 0 |} |}
       (string_of_list_ascii l')].
Proof.
  intros Hold Hnew Hne. unfold diff. rewrite Hold, Hnew.
  assert (∀ (B : Type) (a b : B),
             match pre ++ l :: suf with [] => a | _ :: _ => b end = b) as ->
    by (intros; destruct pre; reflexivity).
  rewrite common_prefix_app, (common_prefix_differ l l') by assumption.
  rewrite Nat.add_0_r, !drop_app_length.
  change (l :: suf) with ([l] ++ suf). change (l' :: suf) with ([l'] ++ suf).
  rewrite common_suffix_app.
  assert (common_suffix [l] [l'] = O) as ->.
  { unfold common_suffix; simpl.
    destruct (decide (l = l')); [contradiction|reflexivity]. }
  rewrite !length_app; simpl length.
  replace (length pre + (1 + length suf) - length pre - (length suf + 0))%nat
    with 1%nat by lia.
  simpl. now rewrite app_nil_r.
Qed.

End DiffFacts.

(** C1. For every previous text and every new text, the change events that
    [change] returns, applied in order starting from the previous text,
    give exactly the new text. *)
Theorem C1_change_events_reconstruct (d : TextDocumentItem.t) (newText : string) :
  TextDocumentItem.apply_events (TextDocumentItem.text d)
    (snd (snd (TextDocumentItem.change d newText)))
  = newText.
Proof. unfold TextDocumentItem.change; simpl. apply diff_reconstructs. Qed.

(** C5. When the new text differs from the stored text in one line only,
    [change] returns exactly one event, an incremental one whose range goes
    from the start of that line to the start of the next, with the new line
    as its text; the version returned is the stored one plus one. *)
Theorem C5_single_line_edit (pre suf : list (list ascii)) (l l' : list ascii)
    (d : TextDocumentItem.t) (newText : string)
    (Hold : Lines.keepends (list_ascii_of_string (TextDocumentItem.text d))
            = pre ++ l :: suf)
    (Hnew : Lines.keepends (list_ascii_of_string newText) = pre ++ l' :: suf)
    (Hne : l ≠ l') :
  snd (TextDocumentItem.change d newText)
  = (TextDocumentItem.version d + 1,
     [TextDocumentItem.Incremental
        {| TextDocumentItem.range_start :=
             {| TextDocumentItem.line := length pre;
                TextDocumentItem.character := 0 |};
           TextDocumentItem.range_end :=
             {| TextDocumentItem.line := length pre + 1;
                TextDocumentItem.character := 0 |} |}
        (string_of_list_ascii l')]).
Proof.
  unfold TextDocumentItem.change; simpl.
  now rewrite (diff_single_line pre suf l l').
Qed.

(** The document lifecycle scenario: opening a.py with the lines a, b and
    changing it to a, X gives version 2 and the single incremental event
    that replaces the second line. *)
Lemma C5_scenario :
  let d := TextDocumentItem.new "file:///a.py" "python" Sample.text_ab in
  Lines.keepends (list_ascii_of_string (TextDocumentItem.text d))
  = [["a"%char; Lines.newline]] ++ ["b"%char; Lines.newline] :: []
  ∧ Lines.keepends (list_ascii_of_string Sample.text_aX)
    = [["a"%char; Lines.newline]] ++ ["X"%char; Lines.newline] :: []
  ∧ ["b"%char; Lines.newline] ≠ ["X"%char; Lines.newline]
  ∧ snd (TextDocumentItem.change d Sample.text_aX)
    = (2,
       [TextDocumentItem.Incremental
          {| TextDocumentItem.range_start :=
               {| TextDocumentItem.line := 1; TextDocumentItem.character := 0 |};
             TextDocumentItem.range_end :=
               {| TextDocumentItem.line := 2; TextDocumentItem.character := 0 |} |}
          (LanguageClient.buffer_text ["X"])]).
Proof.
  intros d.
  split; [reflexivity|]. split; [reflexivity|]. split; [discriminate|].
  apply (C5_single_line_edit [["a"%char; Lines.newline]] []
           ["b"%char; Lines.newline] ["X"%char; Lines.newline] d Sample.text_aX);
    [reflexivity | reflexivity | discriminate].
Defined.

(** ** The correlator *)

Section CorrelatorFacts.
Import RPC.
Context {Handler : Type}.
Implicit Types (c : RPC.t Handler) (op : RPC.Op Handler) (ops : list (RPC.Op Handler)).

Lemma next_id_notify (method : string) (params : Value) c :
  next_id (snd (notify method params c)) = next_id c.
Proof. unfold notify. destruct (closed c); reflexivity. Qed.

Lemma next_id_dispatch (message : Value) c :
  next_id (dispatch message c) = next_id c.
Proof.
  unfold dispatch, onFrame. destruct (closed c); [reflexivity|].
  destruct (matching message c) as [[id cb]|].
  - destruct (field "error" message), (field "result" message); reflexivity.
  - destruct (has_key "method" message); reflexivity.
Qed.

Lemma ids_from_S (a : Z) (n : nat) : ids_from a (S n) = a :: ids_from (a + 1) n.
Proof.
  unfold ids_from. simpl. f_equal; [lia|].
  rewrite <- seq_shift, map_map. apply map_ext. intros k. lia.
Qed.

Lemma ids_from_length (a : Z) (n : nat) : length (ids_from a n) = n.
Proof. unfold ids_from. now rewrite length_map, length_seq. Qed.

Lemma ids_from_ge (a : Z) (n : nat) (i : Z) : i ∈ ids_from a n → a ≤ i.
Proof.
  unfold ids_from. rewrite list_elem_of_In, in_map_iff.
  intros (k & <- & _). lia.
Qed.

Lemma ids_from_sorted (a : Z) (n : nat) : StronglySorted Z.lt (ids_from a n).
Proof.
  revert a; induction n as [|n IH]; intros a.
  - constructor.
  - rewrite ids_from_S. constructor; [apply IH|].
    apply Forall_forall. intros i Hi. apply ids_from_ge in Hi. lia.
Qed.

Lemma ids_from_NoDup (a : Z) (n : nat) : NoDup (ids_from a n).
Proof.
  revert a; induction n as [|n IH]; intros a.
  - constructor.
  - rewrite ids_from_S. apply NoDup_cons. split; [|apply IH].
    intros Hi. apply ids_from_ge in Hi. lia.
Qed.

(** The ids a history returns are the consecutive ones from the counter. *)
Lemma run_ids ops c :
  fst (run ops c) = ids_from (next_id c) (length (fst (run ops c)))
  ∧ next_id (snd (run ops c)) = next_id c + Z.of_nat (length (fst (run ops c))).
Proof.
  revert c; induction ops as [|op ops IH]; intros c; simpl.
  - split; [reflexivity|lia].
  - destruct (step op c) as [r c'] eqn:Hstep.
    specialize (IH c'). destruct (run ops c') as [ids c''] eqn:Hrun.
    simpl in IH. destruct IH as [IHids IHnext].
    assert (match r with
            | Some id => id = next_id c ∧ next_id c' = next_id c + 1
            | None => next_id c' = next_id c
            end) as Hr.
    { destruct op as [method params cb|method params|message|]; simpl in Hstep.
      - unfold call in Hstep. destruct (closed c); inversion Hstep; subst; simpl; auto.
      - inversion Hstep; subst. apply next_id_notify.
      - inversion Hstep; subst. apply next_id_dispatch.
      - inversion Hstep; subst. reflexivity. }
    destruct r as [id|]; simpl.
    + destruct Hr as [-> Hn]. rewrite Hn in *.
      rewrite ids_from_S, <- IHids. split; [reflexivity|lia].
    + rewrite Hr in *. auto.
Qed.

End CorrelatorFacts.

(** C6. On one correlator, whatever else happens in between (responses that
    remove pending entries, notifications, closure), the ids that successive
    calls return are 1, 2, 3, ... in this order: strictly increasing, never
    the same id twice, and the counter stands at the number of ids given out
    plus one. *)
Theorem C6_request_ids_increase (Handler : Type) (ops : list (RPC.Op Handler)) :
  let ids := fst (RPC.run ops RPC.init) in
  ids = map Z.of_nat (seq 1 (length ids))
  ∧ StronglySorted Z.lt ids
  ∧ NoDup ids
  ∧ RPC.next_id (snd (RPC.run ops RPC.init)) = 1 + Z.of_nat (length ids).
Proof.
  intros ids. destruct (run_ids ops (@RPC.init Handler)) as [Hids Hnext].
  fold ids in Hids, Hnext. simpl in Hids, Hnext.
  assert (ids = RPC.ids_from 1 (length ids)) as Hfrom by exact Hids.
  split; [|split; [|split]].
  - rewrite Hfrom at 1. unfold RPC.ids_from.
    rewrite <- seq_shift, map_map. apply map_ext. intros k. lia.
  - rewrite Hfrom. apply ids_from_sorted.
  - rewrite Hfrom. apply ids_from_NoDup.
  - exact Hnext.
Qed.

Section CorrelatorInvariant.
Import RPC.
Context {Handler : Type}.
Implicit Types (c : RPC.t Handler) (op : RPC.Op Handler) (ops : list (RPC.Op Handler)).
















End CorrelatorInvariant.




(** ** The client *)

Section ClientFacts.
Import LanguageClient.
Context `{U : Util}.
Variable nv : Nvim.

Lemma alive_running (warn : bool) (c : Client) :
  running c = true → alive warn c = (Return true, c).
Proof. intros H. unfold alive. now rewrite H. Qed.

Lemma alive_quiet (c : Client) :
  running c = false → alive false c = (Return false, c).
Proof. intros H. unfold alive. now rewrite H. Qed.

Lemma alive_warns (c : Client) :
  running c = false →
  fst (alive true c) = Return false
  ∧ server (snd (alive true c)) = server c
  ∧ rpc (snd (alive true c)) = rpc c
  ∧ textDocuments (snd (alive true c)) = textDocuments c
  ∧ log (snd (alive true c)) = log c.
Proof. intros H. unfold alive. rewrite H. repeat split. Qed.

(** A method that starts with [if not self.alive(): return a] is gated. *)
Lemma gated_bind {A : Type} (a : A) (k : M A) (c : Client) :
  running c = false →
  gated a c (bind (alive true) (λ b, if negb b then ret a else k) c).
Proof.
  intros H. unfold bind, gated.
  destruct (alive_warns c H) as (Hr & _ & Hrpc & Hdocs & Hlog).
  destruct (alive true c) as [o c']. simpl in *. subst o. simpl. auto.
Qed.

(** With no argument, the only key [uri] is the uri of the current buffer. *)
Lemma getArgs_buffer_uri (c : Client) :
  getArgs nv [] ["uri"] c = (Return [VStr (pathToURI (buffer_name nv))], c).
Proof. reflexivity. Qed.

(** [getArgs] reads the editor and its arguments only. *)
Lemma getArgs_uri_pure (args : list Value) (c : Client) :
  snd (getArgs nv args ["uri"] c) = c
  ∧ ∀ c', fst (getArgs nv args ["uri"] c') = fst (getArgs nv args ["uri"] c).
Proof.
  destruct args as [|a args]; [split; reflexivity|].
  destruct a; split; reflexivity.
Qed.

Lemma running_set_textDocuments (d : gmap string TextDocumentItem.t) (c : Client) :
  running (set_textDocuments d c) = running c.
Proof. reflexivity. Qed.

Lemma rpc_notify_frame (method : string) (params : Value) (c : Client) :
  server (snd (rpc_notify method params c)) = server c
  ∧ textDocuments (snd (rpc_notify method params c)) = textDocuments c
  ∧ log (snd (rpc_notify method params c)) = log c.
Proof.
  unfold rpc_notify. destruct (rpc c) as [r|]; [|repeat split].
  unfold RPC.notify. destruct (RPC.closed r); repeat split.
Qed.

(** On an open correlator the notification is written and the call
    returns. *)
Lemma rpc_notify_open (method : string) (params : Value) (c : Client)
    (r : RPC.t Callback) :
  rpc c = Some r → RPC.closed r = false →
  fst (rpc_notify method params c) = Return tt
  ∧ ∃ r', rpc (snd (rpc_notify method params c)) = Some r'
          ∧ RPC.outbound r' = RPC.outbound r ++ [RPC.notification_frame method params]
          ∧ RPC.pending r' = RPC.pending r
          ∧ RPC.next_id r' = RPC.next_id r.
Proof.
  intros Hr Hc. unfold rpc_notify, RPC.notify. rewrite Hr, Hc. simpl.
  split; [reflexivity|]. eexists. repeat split.
Qed.

End ClientFacts.

Section ClientClaims.
Import LanguageClient.
Context `{U : Util}.

(** C10. When the server subprocess is absent or has exited, each of
    initialize, hover, definition, rename, documentSymbol, workspace_symbol,
    didClose, completion and exit returns after its [alive] check: no call
    and no notification reaches the correlator, the document table is as
    before, and completion returns the empty list. *)
Theorem C10_not_alive_returns (nv : Nvim) (args : list Value) (c : Client) :
  running c = false →
  gated tt c (initialize nv args c)
  ∧ gated tt c (textDocument_hover nv args c)
  ∧ gated tt c (textDocument_definition nv args c)
  ∧ gated tt c (textDocument_rename nv args c)
  ∧ gated tt c (textDocument_documentSymbol nv args c)
  ∧ gated tt c (workspace_symbol nv args c)
  ∧ gated tt c (textDocument_didClose nv args c)
  ∧ gated (VList []) c (textDocument_completion nv args c)
  ∧ gated tt c (exit args c).
Proof.
  intros H. repeat split_and;
    [ unfold initialize | unfold textDocument_hover
    | unfold textDocument_definition | unfold textDocument_rename
    | unfold textDocument_documentSymbol | unfold workspace_symbol
    | unfold textDocument_didClose | unfold textDocument_completion
    | unfold exit ];
    apply gated_bind; exact H.
Qed.

(** C9. When the uri of the current buffer is not in the document table,
    [textDocument_didChange] returns without a notification: the correlator
    and the whole document table are as before. *)
Theorem C9_didChange_untracked (nv : Nvim) (c : Client) :
  textDocuments c !! pathToURI (buffer_name nv) = None →
  fst (textDocument_didChange nv c) = Return tt
  ∧ rpc (snd (textDocument_didChange nv c)) = rpc c
  ∧ textDocuments (snd (textDocument_didChange nv c)) = textDocuments c.
Proof.
  intros H. unfold textDocument_didChange, bind.
  destruct (running c) eqn:Hr.
  - rewrite (alive_running false c Hr). simpl. rewrite H. repeat split.
  - rewrite (alive_quiet c Hr). repeat split.
Qed.

End ClientClaims.

Section DocumentTable.
Import LanguageClient.
Context `{U : Util}.

Lemma didChange_tracked (nv : Nvim) (c : Client) (d : TextDocumentItem.t) :
  running c = true →
  textDocuments c !! pathToURI (buffer_name nv) = Some d →
  textDocuments (snd (textDocument_didChange nv c))
  = <[pathToURI (buffer_name nv) :=
        fst (TextDocumentItem.change d (buffer_text (getline nv)))]> (textDocuments c)
  ∧ server (snd (textDocument_didChange nv c)) = server c.
Proof.
  intros Hr Hd. unfold textDocument_didChange, bind.
  rewrite (alive_running false c Hr). simpl. rewrite Hd.
  unfold change_textDocument. simpl.
  match goal with
  | |- context [rpc_notify ?m ?p ?c0] =>
      destruct (rpc_notify_frame m p c0) as (Hs & Ht & _);
      destruct (rpc_notify m p c0) as [[[]|e] c1]
  end; simpl in *; rewrite Hs, Ht; split; reflexivity.
Qed.

Lemma last_cons {A : Type} (x d : A) (l : list A) : List.last (x :: l) d = List.last l x.
Proof.
  revert x d; induction l as [|y l IH]; intros x d; [reflexivity|].
  change (List.last (x :: y :: l) d) with (List.last (y :: l) d).
  now rewrite !(IH y).
Qed.

(** C2. Each change reported for a tracked document adds exactly one to its
    version and stores the new full text with it, in the one step that takes
    the table from one state to the next: after [n] reports the version is
    the initial one plus [n] and the text is the last one reported, whatever
    [n] is; the other documents are untouched. *)
Theorem C2_version_and_text (b : string) (nvs : list Nvim) (c : Client)
    (d : TextDocumentItem.t) :
  running c = true →
  Forall (λ nv, buffer_name nv = b) nvs →
  textDocuments c !! pathToURI b = Some d →
  (∀ newText,
     TextDocumentItem.version (fst (TextDocumentItem.change d newText))
     = TextDocumentItem.version d + 1
     ∧ TextDocumentItem.text (fst (TextDocumentItem.change d newText)) = newText
     ∧ fst (snd (TextDocumentItem.change d newText)) = TextDocumentItem.version d + 1
     ∧ TextDocumentItem.version d
       < TextDocumentItem.version (fst (TextDocumentItem.change d newText)))
  ∧ ∃ d', textDocuments (did_changes nvs c) !! pathToURI b = Some d'
     ∧ TextDocumentItem.version d'
       = TextDocumentItem.version d + Z.of_nat (length nvs)
     ∧ TextDocumentItem.text d'
       = List.last (map (λ nv, buffer_text (getline nv)) nvs) (TextDocumentItem.text d)
     ∧ ∀ u, u ≠ pathToURI b →
            textDocuments (did_changes nvs c) !! u = textDocuments c !! u.
Proof.
  intros Hr Hb Hd. split; [intros newText; repeat split; simpl; lia|].
  revert c d Hr Hd. induction Hb as [|nv nvs Hnv Hb IH]; intros c d Hr Hd.
  - exists d. simpl. repeat split; [assumption|lia].
  - subst b. destruct (didChange_tracked nv c d Hr Hd) as [Ht Hs].
    set (c1 := snd (textDocument_didChange nv c)) in *.
    set (d1 := fst (TextDocumentItem.change d (buffer_text (getline nv)))) in *.
    assert (running c1 = true) as Hr1 by (unfold running in *; now rewrite Hs).
    assert (textDocuments c1 !! pathToURI (buffer_name nv) = Some d1) as Hd1
      by (rewrite Ht; apply lookup_insert_eq).
    destruct (IH c1 d1 Hr1 Hd1) as (d' & Hl & Hv & Htx & Hoth).
    exists d'. change (did_changes (nv :: nvs) c) with (did_changes nvs c1).
    split; [exact Hl|]. split; [|split].
    + rewrite Hv. unfold d1. simpl. lia.
    + rewrite Htx. simpl map. now rewrite last_cons.
    + intros u Hu. rewrite (Hoth u Hu), Ht. now apply lookup_insert_ne.
Qed.

End DocumentTable.

Section OpenClose.
Import LanguageClient.
Context `{U : Util}.

Lemma getArgs_uri_at (nv : Nvim) (args : list Value) (c c' : Client) (res : list Value) :
  fst (getArgs nv args ["uri"] c) = Return res →
  getArgs nv args ["uri"] c' = (Return res, c').
Proof.
  intros H. destruct (getArgs_uri_pure nv args c') as [Hs Hf].
  rewrite (Hf c) in H.
  destruct (getArgs nv args ["uri"] c') as [o c'']. simpl in *. congruence.
Qed.

(** Closing a uri that is not tracked, with a running server: [del] raises
    and nothing else happens. *)
Lemma didClose_untracked (nv : Nvim) (args : list Value) (c : Client) (u : string) :
  running c = true →
  fst (getArgs nv args ["uri"] c) = Return [VStr u] →
  textDocuments c !! u = None →
  textDocument_didClose nv args c
  = (Raise (KeyError (VStr u)), snd (logger (Info "textDocument/didClose") c)).
Proof.
  intros Hr Hu Hd. unfold textDocument_didClose, bind at 1.
  rewrite (alive_running true c Hr). cbn [negb]. unfold bind at 1. cbn [logger].
  unfold bind at 1. rewrite (getArgs_uri_at nv args c _ _ Hu).
  unfold bind, del_textDocument. simpl. rewrite Hd. reflexivity.
Qed.

Lemma didClose_tracked (nv : Nvim) (args : list Value) (c : Client) (u : string) :
  running c = true →
  fst (getArgs nv args ["uri"] c) = Return [VStr u] →
  is_Some (textDocuments c !! u) →
  textDocument_didClose nv args c
  = rpc_notify "textDocument/didClose"
      (VDict [("textDocument", VDict [("uri", VStr u)])])
      (set_textDocuments (delete u (textDocuments c))
         (snd (logger (Info "textDocument/didClose") c))).
Proof.
  intros Hr Hu [d Hd]. unfold textDocument_didClose, bind at 1.
  rewrite (alive_running true c Hr). cbn [negb]. unfold bind at 1. cbn [logger].
  unfold bind at 1. rewrite (getArgs_uri_at nv args c _ _ Hu).
  unfold bind, del_textDocument. simpl. rewrite Hd. reflexivity.
Qed.


(** C4, as amended. With a running server and a buffer whose filetype is
    not empty and has a server command, opening stores under the uri of the
    buffer a new document of version 1 with that filetype and the text of
    the buffer, in place of any document already tracked under the uri; the
    other documents are untouched; on an open correlator the didOpen
    notification of the new document is written, as the one frame added and
    with no callback registered, and the call returns. Otherwise the call
    returns with the document table and the correlator as before: nothing
    is sent. *)
Theorem C4_open_replaces (nv : Nvim) (c : Client) :
  let u := pathToURI (buffer_name nv) in
  let item := TextDocumentItem.new u (filetype nv) (buffer_text (getline nv)) in
  let r := textDocument_didOpen nv c in
  (running c = true → filetype nv ≠ "" →
   is_Some (assoc (filetype nv) (serverCommands c)) →
   textDocuments (snd r) = <[u := item]> (textDocuments c)
   ∧ TextDocumentItem.version item = 1
   ∧ ∀ q, rpc c = Some q → RPC.closed q = false →
       fst r = Return tt
       ∧ ∃ q', rpc (snd r) = Some q'
               ∧ RPC.outbound q'
                 = RPC.outbound q
                     ++ [RPC.notification_frame "textDocument/didOpen"
                           (VDict [("textDocument",
                                    VDict [("textDocument", item_dict item)])])]
               ∧ RPC.pending q' = RPC.pending q
               ∧ RPC.next_id q' = RPC.next_id q)
  ∧ (running c = false ∨ filetype nv = ""
     ∨ assoc (filetype nv) (serverCommands c) = None →
     fst r = Return tt
     ∧ textDocuments (snd r) = textDocuments c
     ∧ rpc (snd r) = rpc c).
Proof.
  intros u item r. split.
  - intros Hr Hft Hcmd. unfold r, textDocument_didOpen, bind.
    rewrite (alive_running false c Hr). simpl.
    apply String.eqb_neq in Hft. rewrite Hft.
    rewrite (bool_decide_eq_true_2 _ Hcmd). simpl.
    fold u. fold item.
    match goal with
    | |- context [rpc_notify ?m ?p ?c0] =>
        pose proof (rpc_notify_frame m p c0) as (_ & Ht & _);
        pose proof (rpc_notify_open m p c0) as Hopen
    end.
    split; [exact Ht|]. split; [reflexivity|].
    intros q Hq Hc. exact (Hopen q Hq Hc).
  - intros Hgate. unfold r, textDocument_didOpen, bind.
    destruct (running c) eqn:Hr.
    + rewrite (alive_running false c Hr). simpl.
      destruct Hgate as [Hg|[Hg|Hg]]; [discriminate| |].
      * rewrite Hg. simpl. now repeat split.
      * assert (bool_decide (is_Some (assoc (filetype nv) (serverCommands c))) = false)
          as -> by (apply bool_decide_eq_false_2; rewrite Hg; now intros [? ?]).
        rewrite orb_true_r. now repeat split.
    + rewrite (alive_quiet c Hr). now repeat split.
Qed.

End OpenClose.

Section Dispatch.
Import LanguageClient.

(** C8, as amended. For a message whose method field is a string, the
    handler runs inside the [try]: whatever it raises, and a missing params
    field too, is caught and logged; with no attribute of that name only a
    warning is logged; the method returns normally in every such case. *)
Theorem C8_handler_exceptions_caught (attribute : string → option (Value → M unit))
    (d : list (string * Value)) (m : string) (c : Client) :
  assoc "method" d = Some (VStr m) →
  let method := replace "/" "_" m in
  let r := handleRequestOrNotification attribute (VDict d) c in
  fst r = Return tt
  ∧ match attribute method with
    | None =>
        snd r = snd (logger (Warn ("no handler implemented for " ++ method)) c)
    | Some handler =>
        match bind (subscript (VDict d) "params") handler c with
        | (Return _, c') => snd r = c'
        | (Raise _, c') =>
            snd r = snd (logger (Exception "Exception in handle.") c')
        end
    end.
Proof.
  intros Hm method r. unfold r, handleRequestOrNotification, bind, try_except.
  simpl. rewrite Hm. simpl. fold method.
  destruct (attribute method) as [handler|]; [|split; reflexivity].
  destruct (assoc "params" d) as [params|]; simpl; [|split; reflexivity].
  destruct (handler params c) as [[[]|e] c']; split; reflexivity.
Qed.

End Dispatch.

(** ** Scenarios *)

(** Two changes of a.py tracked at version 5 leave it at version 7 with the
    text of the second change. *)
Lemma C2_two_changes :
  LanguageClient.running Sample.tracking = true
  ∧ Forall (λ nv, LanguageClient.buffer_name nv = "/a.py") [Sample.nv; Sample.nv']
  ∧ LanguageClient.textDocuments Sample.tracking !! "file:///a.py" = Some Sample.tracked
  ∧ ∃ d', LanguageClient.textDocuments
            (@LanguageClient.did_changes Sample.util [Sample.nv; Sample.nv']
               Sample.tracking) !! "file:///a.py" = Some d'
          ∧ TextDocumentItem.version d' = 7
          ∧ TextDocumentItem.text d' = LanguageClient.buffer_text ["a"; "X"; "c"].
Proof.
  assert (LanguageClient.running Sample.tracking = true) as H1 by reflexivity.
  assert (Forall (λ nv, LanguageClient.buffer_name nv = "/a.py") [Sample.nv; Sample.nv'])
    as H2 by (repeat constructor).
  assert (LanguageClient.textDocuments Sample.tracking
            !! @LanguageClient.pathToURI Sample.util "/a.py" = Some Sample.tracked)
    as H3 by (vm_compute; reflexivity).
  split; [exact H1|]. split; [exact H2|]. split; [exact H3|].
  destruct (@C2_version_and_text Sample.util "/a.py" [Sample.nv; Sample.nv']
              Sample.tracking Sample.tracked H1 H2 H3)
    as (_ & d' & Hl & Hv & Ht & _).
  exists d'. split; [exact Hl|]. split; [exact Hv|exact Ht].
Defined.



(** Opening a.py while it is tracked at version 5 puts a version 1 document
    with the text of the buffer in its place. *)
Lemma C4_open_tracked :
  let r := @LanguageClient.textDocument_didOpen Sample.util Sample.nv Sample.tracking in
  LanguageClient.running Sample.tracking = true
  ∧ LanguageClient.filetype Sample.nv ≠ ""
  ∧ is_Some (assoc (LanguageClient.filetype Sample.nv)
               (LanguageClient.serverCommands Sample.tracking))
  ∧ LanguageClient.textDocuments (snd r)
    = <["file:///a.py" :=
          TextDocumentItem.new "file:///a.py" "python" Sample.text_aX]>
        (LanguageClient.textDocuments Sample.tracking).
Proof.
  intros r.
  assert (LanguageClient.running Sample.tracking = true) as H1 by reflexivity.
  assert (LanguageClient.filetype Sample.nv ≠ "") as H2 by discriminate.
  assert (is_Some (assoc (LanguageClient.filetype Sample.nv)
                     (LanguageClient.serverCommands Sample.tracking)))
    as H3 by (eexists; reflexivity).
  split; [exact H1|]. split; [exact H2|]. split; [exact H3|].
  destruct (@C4_open_replaces Sample.util Sample.nv Sample.tracking) as (Hopen & _).
  exact (proj1 (Hopen H1 H2 H3)).
Defined.

(** C4, as stated, fails: a.py is tracked at version 5 with the text a, b;
    opening it again returns normally and the entry is now at version 1
    with the text a, X. *)
Lemma C4_open_tracked_overwrites :
  let r := @LanguageClient.textDocument_didOpen Sample.util Sample.nv Sample.tracking in
  LanguageClient.textDocuments Sample.tracking !! "file:///a.py" = Some Sample.tracked
  ∧ fst r = LanguageClient.Return tt
  ∧ LanguageClient.textDocuments (snd r) !! "file:///a.py"
    = Some {| TextDocumentItem.uri := "file:///a.py";
              TextDocumentItem.languageId := "python";
              TextDocumentItem.version := 1;
              TextDocumentItem.text := Sample.text_aX |}.
Proof. vm_compute. repeat split; reflexivity. Qed.

(** A diagnostics notification whose second diagnostic lacks its message:
    the first message is echoed, the [KeyError] is caught and logged. *)
Lemma C8_diagnostics :
  let r := LanguageClient.handleRequestOrNotification Sample.attributes
             (VDict Sample.diagnostics) Sample.started in
  assoc "method" Sample.diagnostics = Some (VStr "textDocument/publishDiagnostics")
  ∧ fst r = LanguageClient.Return tt
  ∧ LanguageClient.log (snd r) = [LanguageClient.Exception "Exception in handle."]
  ∧ LanguageClient.editor (snd r) = [LanguageClient.AsyncCommand "echo 'unused variable'"].
Proof.
  intros r.
  assert (assoc "method" Sample.diagnostics
          = Some (VStr "textDocument/publishDiagnostics")) as H1 by reflexivity.
  split; [exact H1|].
  split; [exact (proj1 (C8_handler_exceptions_caught Sample.attributes
                          Sample.diagnostics _ Sample.started H1))|].
  split; reflexivity.
Defined.

(** C8, as stated, fails: a message that carries a method field whose
    value is a number, or null. Neither has a [replace]; the
    [AttributeError] is raised before the [try] and leaves the method. *)
Lemma C8_method_not_a_string :
  let number := [("jsonrpc", VStr "2.0"); ("method", VInt 5)] in
  let null := [("jsonrpc", VStr "2.0"); ("method", VNone); ("params", VDict [])] in
  has_key "method" (VDict number) = true
  ∧ fst (LanguageClient.handleRequestOrNotification Sample.attributes
           (VDict number) Sample.started)
    = LanguageClient.Raise (AttributeError "replace")
  ∧ has_key "method" (VDict null) = true
  ∧ fst (LanguageClient.handleRequestOrNotification Sample.attributes
           (VDict null) Sample.started)
    = LanguageClient.Raise (AttributeError "replace").
Proof. repeat split; reflexivity. Qed.

(** A change of a.py while no document is tracked. *)
Lemma C9_nothing_tracked :
  let r := @LanguageClient.textDocument_didChange Sample.util Sample.nv Sample.started in
  LanguageClient.textDocuments Sample.started !! "file:///a.py" = None
  ∧ fst r = LanguageClient.Return tt
  ∧ LanguageClient.rpc (snd r) = LanguageClient.rpc Sample.started
  ∧ LanguageClient.textDocuments (snd r) = LanguageClient.textDocuments Sample.started.
Proof.
  intros r.
  assert (LanguageClient.textDocuments Sample.started
            !! @LanguageClient.pathToURI Sample.util
                 (LanguageClient.buffer_name Sample.nv) = None) as H1
    by (vm_compute; reflexivity).
  split; [exact H1|].
  exact (@C9_didChange_untracked Sample.util Sample.nv Sample.started H1).
Defined.

(** Completion and didClose on a client whose server has exited, hover on
    a client whose server was never started. *)
Lemma C10_server_exited :
  LanguageClient.running Sample.exited = false
  ∧ LanguageClient.running Sample.stopped = false
  ∧ LanguageClient.gated (VList []) Sample.exited
      (@LanguageClient.textDocument_completion Sample.util Sample.nv [] Sample.exited)
  ∧ LanguageClient.gated tt Sample.exited
      (@LanguageClient.textDocument_didClose Sample.util Sample.nv [] Sample.exited)
  ∧ LanguageClient.gated tt Sample.stopped
      (@LanguageClient.textDocument_hover Sample.util Sample.nv [] Sample.stopped).
Proof.
  assert (LanguageClient.running Sample.exited = false) as H1 by reflexivity.
  assert (LanguageClient.running Sample.stopped = false) as H2 by reflexivity.
  split; [exact H1|]. split; [exact H2|].
  destruct (@C10_not_alive_returns Sample.util Sample.nv [] Sample.exited H1)
    as (_ & _ & _ & _ & _ & _ & Hclose & Hcompletion & _).
  destruct (@C10_not_alive_returns Sample.util Sample.nv [] Sample.stopped H2)
    as (_ & Hhover & _).
  split; [exact Hcompletion|]. split; [exact Hclose|exact Hhover].
Defined.

(** The document lifecycle on the client: a.py is opened with the lines
    a, b and then changed to a, X; the last frame written is the didChange
    notification with version 2 and the one incremental event for the
    second line. *)
Example document_lifecycle :
  let c1 := snd (@LanguageClient.textDocument_didOpen Sample.util Sample.nv0
                   Sample.started) in
  let c2 := snd (@LanguageClient.textDocument_didChange Sample.util Sample.nv c1) in
  (λ q, List.last (RPC.outbound q) VNone) <$> LanguageClient.rpc c2
  = Some (RPC.notification_frame "textDocument/didChange"
            (VDict [("textDocument",
                     VDict [("uri", VStr "file:///a.py"); ("version", VInt 2)]);
                    ("contentChanges",
                     VList [VDict [("range",
                                    VDict [("start",
                                            VDict [("line", VInt 1);
                                                   ("character", VInt 0)]);
                                           ("end",
                                            VDict [("line", VInt 2);
                                                   ("character", VInt 0)])]);
                                   ("newText",
                                    VStr (LanguageClient.buffer_text ["X"]))]])])).
Proof. vm_compute. reflexivity. Qed.

(** * Further properties of the client *)

(** ** What [getArgs] returns *)

Section ArgsFacts.
Import LanguageClient Args.
Context `{U : Util}.
Variable nv : Nvim.

Lemma dict_get_dict (d : list (string * Value)) (k : string) (dv : Value) (c : Client) :
  dict_get (VDict d) k (ret dv) c
  = (Return (match assoc k d with Some v => v | None => dv end), c).
Proof. reflexivity. Qed.

Lemma getPos_cursor :
  getPos nv = [default_arg nv "line"; default_arg nv "character"].
Proof. unfold getPos, default_arg. destruct (getpos nv) as [[[? ?] ?] ?]. reflexivity. Qed.

(** The loop of [getArgs] on a dict: one value per key, or [IndexError] at
    the first [character] that no [line] precedes. *)
Lemma getArgs_loop_dict (d : list (string * Value)) (keys : list string)
    (seen : bool) (c : Client) :
  getArgs_loop nv (VDict d) keys (if seen then getPos nv else []) c
  = (if line_first seen keys
     then Return (map (arg_value nv d) keys)
     else Raise IndexError, c).
Proof.
  unfold arg_value, default_arg.
  assert (getPos nv = [VInt (snd (fst (fst (getpos nv))) - 1);
                       VInt (snd (fst (getpos nv)) - 1)]) as Hpos
    by (unfold getPos; destruct (getpos nv) as [[[? ?] ?] ?]; reflexivity).
  destruct (getpos nv) as [[[o1 line] character] o2]. cbn [fst snd] in Hpos.
  revert seen; induction keys as [|k keys IH]; intros seen; [reflexivity|].
  cbn [getArgs_loop line_first map]. unfold bind at 1, getArgs_key.
  destruct (String.eqb k "uri") eqn:Huri.
  { pose proof Huri as Hk. apply String.eqb_eq in Hk. subst k.
    unfold bind at 1. rewrite dict_get_dict.
    unfold bind, ret. cbn [fst snd]. rewrite IH.
    destruct (line_first seen keys); reflexivity. }
  destruct (String.eqb k "line") eqn:Hline.
  { pose proof Hline as Hk. apply String.eqb_eq in Hk. subst k.
    unfold bind at 1. rewrite Hpos at 1. cbn [index nth_error].
    rewrite dict_get_dict.
    unfold bind, ret. cbn [fst snd]. rewrite (IH true).
    destruct (line_first true keys); reflexivity. }
  destruct (String.eqb k "character") eqn:Hchar.
  { pose proof Hchar as Hk. apply String.eqb_eq in Hk. subst k. destruct seen.
    - unfold bind at 1. rewrite Hpos at 1. cbn [index nth_error].
      rewrite dict_get_dict. unfold bind, ret. cbn [fst snd].
      rewrite (IH true).
      destruct (line_first true keys); reflexivity.
    - reflexivity. }
  unfold bind at 1. rewrite dict_get_dict. unfold bind, ret. cbn [fst snd].
  rewrite IH. destruct (line_first seen keys); reflexivity.
Qed.

Lemma getArgs_dict (argsL : list Value) (d : list (string * Value))
    (keys : list string) (c : Client) :
  first_arg argsL = VDict d →
  getArgs nv argsL keys c
  = (if line_first false keys
     then Return (map (arg_value nv d) keys)
     else Raise IndexError, c).
Proof.
  intros Hd. unfold getArgs. fold (first_arg argsL). rewrite Hd.
  apply (getArgs_loop_dict d keys false c).
Qed.

Lemma getArgs_other (argsL : list Value) (keys : list string) (c : Client) :
  is_dict (first_arg argsL) = false →
  keys ≠ [] →
  getArgs nv argsL keys c = (Raise (AttributeError "get"), c).
Proof.
  intros Hd Hk. unfold getArgs. fold (first_arg argsL).
  destruct keys as [|k keys]; [contradiction|].
  cbn [getArgs_loop]. unfold bind at 1, getArgs_key.
  destruct (first_arg argsL); try discriminate;
    destruct (String.eqb k "uri"); try reflexivity;
    destruct (String.eqb k "line"); try reflexivity;
    destruct (String.eqb k "character"); reflexivity.
Qed.

(** [getArgs] never changes the client. *)
Lemma getArgs_state (argsL : list Value) (keys : list string) (c : Client) :
  snd (getArgs nv argsL keys c) = c.
Proof.
  destruct (is_dict (first_arg argsL)) eqn:Hd.
  - destruct (first_arg argsL) as [| | | | |d] eqn:Hf; try discriminate.
    rewrite (getArgs_dict argsL d keys c Hf). reflexivity.
  - destruct keys as [|k keys]; [reflexivity|].
    now rewrite (getArgs_other argsL (k :: keys) c Hd).
Qed.

(** X1. Called with no argument or with a dict, and with every [character]
    key after a [line] key, [getArgs] returns one value per key, in the
    order of the keys: the value the caller gave under that key, else the
    uri of the buffer, the line or the character of the cursor counted from
    0, or [None]; the client is not touched. *)
Theorem X1_getArgs_values (argsL : list Value) (d : list (string * Value))
    (keys : list string) (c : Client) :
  first_arg argsL = VDict d →
  line_first false keys = true →
  getArgs nv argsL keys c = (Return (map (arg_value nv d) keys), c).
Proof. intros Hd Hk. now rewrite (getArgs_dict argsL d keys c Hd), Hk. Qed.

(** X2. With a [character] key that no [line] key precedes, [getArgs]
    raises [IndexError], also when the caller gave the character: the
    default [pos[1]] is evaluated before the dict is read. *)
Theorem X2_getArgs_character_first (argsL : list Value) (d : list (string * Value))
    (keys : list string) (c : Client) :
  first_arg argsL = VDict d →
  line_first false keys = false →
  getArgs nv argsL keys c = (Raise IndexError, c).
Proof. intros Hd Hk. now rewrite (getArgs_dict argsL d keys c Hd), Hk. Qed.

(** X3. When the first argument is not a dict and there is a key to look
    up, [getArgs] raises [AttributeError] and the client is not touched. *)
Theorem X3_getArgs_not_a_dict (argsL : list Value) (keys : list string) (c : Client) :
  is_dict (first_arg argsL) = false →
  keys ≠ [] →
  getArgs nv argsL keys c = (Raise (AttributeError "get"), c).
Proof. apply getArgs_other. Qed.

End ArgsFacts.

(** ** What the methods leave alone *)

Section FrameFacts.
Import LanguageClient Frame.
Context `{U : Util}.
Context {B : Type} (f : Client → B).

Lemma keeps_ret {A : Type} (a : A) : keeps f (ret a).
Proof. intros c. reflexivity. Qed.

Lemma keeps_raise {A : Type} (e : Exn) : keeps f (@raise A e).
Proof. intros c. reflexivity. Qed.

Lemma keeps_bind {A A' : Type} (m : M A) (k : A → M A') :
  keeps f m → (∀ a, keeps f (k a)) → keeps f (bind m k).
Proof.
  intros Hm Hk c. unfold bind. specialize (Hm c).
  destruct (m c) as [[a|e] c']; simpl in *; [|assumption].
  now rewrite Hk.
Qed.

Lemma keeps_try_except {A : Type} (m h : M A) :
  keeps f m → keeps f h → keeps f (try_except m h).
Proof.
  intros Hm Hh c. unfold try_except. specialize (Hm c).
  destruct (m c) as [[a|e] c']; simpl in *; [assumption|].
  now rewrite Hh.
Qed.

Lemma keeps_state_if {A : Type} (b : Client → bool) (m1 m2 : M A) :
  keeps f m1 → keeps f m2 → keeps f (λ c, if b c then m1 c else m2 c).
Proof. intros H1 H2 c. destruct (b c); [apply H1|apply H2]. Qed.

Lemma keeps_getArgs (nv : Nvim) (argsL : list Value) (keys : list string) :
  keeps f (getArgs nv argsL keys).
Proof. intros c. now rewrite getArgs_state. Qed.

Hypothesis Hf : stable f.

Lemma keeps_logger (e : LogEntry) : keeps f (logger e).
Proof. intros c. apply Hf. Qed.

Lemma keeps_nvim (e : EditorCall) : keeps f (nvim e).
Proof. intros c. apply Hf. Qed.

Lemma keeps_asyncEcho (message : string) : keeps f (asyncEcho message).
Proof. apply keeps_nvim. Qed.

Lemma keeps_alive (warn : bool) : keeps f (alive warn).
Proof.
  intros c. unfold alive. destruct (running c); [reflexivity|].
  apply keeps_bind; [destruct warn; [apply keeps_asyncEcho|apply keeps_ret]|].
  intros _. apply keeps_ret.
Qed.

Lemma keeps_rpc_call (method : string) (params : Value) (cb : Callback) :
  keeps f (rpc_call method params cb).
Proof.
  intros c. unfold rpc_call. destruct (rpc c) as [r|]; [|reflexivity].
  destruct (RPC.call method params cb r) as [[e|id] r']; apply Hf.
Qed.

Lemma keeps_rpc_notify (method : string) (params : Value) :
  keeps f (rpc_notify method params).
Proof.
  intros c. unfold rpc_notify. destruct (rpc c) as [r|]; [|reflexivity].
  destruct (RPC.notify method params r) as [[e|[]] r']; apply Hf.
Qed.

End FrameFacts.

Lemma stable_textDocuments : Frame.stable LanguageClient.textDocuments.
Proof. repeat split. Qed.

Lemma stable_settings : Frame.stable Frame.settings.
Proof. repeat split. Qed.

(** A method built from the primitives keeps a stable part of the client. *)
Ltac keeps_step Hf :=
  first
    [ apply keeps_ret | apply keeps_raise
    | apply keeps_getArgs
    | apply (keeps_logger _ Hf) | apply (keeps_nvim _ Hf)
    | apply (keeps_alive _ Hf)
    | apply (keeps_rpc_call _ Hf) | apply (keeps_rpc_notify _ Hf)
    | apply keeps_bind; [|intros ?]
    | match goal with
      | |- Frame.keeps _ (if ?b then _ else _) => destruct b
      | |- Frame.keeps _ (match ?x with _ => _ end) => destruct x
      end ].

Ltac keeps_solve Hf := repeat keeps_step Hf.

Section MethodFrames.
Import LanguageClient Frame.
Context `{U : Util}.
Context {B : Type} (f : Client → B) (Hf : stable f).
Variable nv : Nvim.

Lemma keeps_requests (args : list Value) :
  keeps f (initialize nv args)
  ∧ keeps f (textDocument_hover nv args)
  ∧ keeps f (textDocument_definition nv args)
  ∧ keeps f (textDocument_rename nv args)
  ∧ keeps f (textDocument_documentSymbol nv args)
  ∧ keeps f (workspace_symbol nv args)
  ∧ keeps f (textDocument_completion nv args)
  ∧ keeps f (exit args)
  ∧ keeps f (textDocument_didSave nv).
Proof.
  repeat split_and;
    [ unfold initialize | unfold textDocument_hover
    | unfold textDocument_definition | unfold textDocument_rename
    | unfold textDocument_documentSymbol | unfold workspace_symbol
    | unfold textDocument_completion | unfold exit
    | unfold textDocument_didSave ];
    cbv zeta; keeps_solve Hf.
Qed.

Hypothesis Hdocs : ∀ d c, f (set_textDocuments d c) = f c.

Lemma keeps_didOpen : keeps f (textDocument_didOpen nv).
Proof.
  unfold textDocument_didOpen. cbv zeta.
  apply keeps_bind; [apply (keeps_alive _ Hf)|intros a].
  destruct a; cbn [negb]; [|apply keeps_ret].
  apply keeps_bind; [apply (keeps_logger _ Hf)|intros _].
  apply keeps_state_if; [apply keeps_ret|].
  apply keeps_bind; [apply keeps_getArgs|intros res].
  destruct res as [|uri res]; [apply keeps_raise|].
  destruct res; [|destruct uri; apply keeps_raise].
  destruct uri; try apply keeps_raise.
  apply keeps_bind; [intros c; apply Hdocs|intros _].
  apply (keeps_rpc_notify _ Hf).
Qed.

Lemma keeps_didChange : keeps f (textDocument_didChange nv).
Proof.
  unfold textDocument_didChange.
  apply keeps_bind; [apply (keeps_alive _ Hf)|intros a].
  destruct a; cbn [negb]; [|apply keeps_ret].
  apply keeps_bind; [apply (keeps_logger _ Hf)|intros _].
  apply keeps_bind; [apply keeps_getArgs|intros res].
  destruct res as [|uri res]; [apply keeps_raise|].
  destruct res; [|destruct uri; apply keeps_raise].
  destruct uri; try apply keeps_raise; try apply keeps_ret.
  intros c. destruct (textDocuments c !! s) as [d|]; [|reflexivity].
  apply (keeps_bind f (change_textDocument s d (buffer_text (getline nv)))).
  - intros c'. unfold change_textDocument. simpl. apply Hdocs.
  - intros vc. apply (keeps_rpc_notify _ Hf).
Qed.

Lemma keeps_didClose (args : list Value) : keeps f (textDocument_didClose nv args).
Proof.
  unfold textDocument_didClose.
  apply keeps_bind; [apply (keeps_alive _ Hf)|intros a].
  destruct a; cbn [negb]; [|apply keeps_ret].
  apply keeps_bind; [apply (keeps_logger _ Hf)|intros _].
  apply keeps_bind; [apply keeps_getArgs|intros res].
  destruct res as [|uri res]; [apply keeps_raise|].
  destruct res; [|apply keeps_raise].
  apply keeps_bind; [|intros _; apply (keeps_rpc_notify _ Hf)].
  intros c. unfold del_textDocument.
  destruct uri; try reflexivity.
  destruct (textDocuments c !! s); [apply Hdocs|reflexivity].
Qed.

Lemma keeps_publish (diagnostics : list Value) : keeps f (publish diagnostics).
Proof.
  induction diagnostics as [|diagnostic rest IH]; [apply keeps_ret|].
  cbn [publish].
  apply keeps_bind; [unfold subscript; keeps_solve Hf|intros m].
  apply keeps_bind; [unfold str_replace; keeps_solve Hf|intros message].
  apply keeps_bind; [apply (keeps_asyncEcho _ Hf)|intros _]. exact IH.
Qed.

Lemma keeps_publishDiagnostics (params : Value) :
  keeps f (textDocument_publishDiagnostics params).
Proof.
  unfold textDocument_publishDiagnostics.
  apply keeps_bind; [unfold subscript; keeps_solve Hf|intros ds].
  apply keeps_bind; [unfold iterate; keeps_solve Hf|intros diagnostics].
  apply keeps_publish.
Qed.

End MethodFrames.

Section Untouched.
Import LanguageClient Frame.
Context `{U : Util}.

(** X7. No method of the document and request interface changes the
    server process, the server commands or the capabilities, whether it
    returns or raises: a client that runs stays running and one that does
    not stays so. *)
Theorem X7_methods_keep_settings (nv : Nvim) (args : list Value) (params : Value) :
  (keeps settings (initialize nv args)
   ∧ keeps settings (textDocument_hover nv args)
   ∧ keeps settings (textDocument_definition nv args)
   ∧ keeps settings (textDocument_rename nv args)
   ∧ keeps settings (textDocument_documentSymbol nv args)
   ∧ keeps settings (workspace_symbol nv args)
   ∧ keeps settings (textDocument_completion nv args)
   ∧ keeps settings (exit args)
   ∧ keeps settings (textDocument_didSave nv))
  ∧ keeps settings (textDocument_didOpen nv)
  ∧ keeps settings (textDocument_didChange nv)
  ∧ keeps settings (textDocument_didClose nv args)
  ∧ keeps settings (textDocument_publishDiagnostics params)
  ∧ ∀ c c', settings c' = settings c → running c' = running c.
Proof.
  split; [apply keeps_requests, stable_settings|].
  split; [apply keeps_didOpen; [apply stable_settings|reflexivity]|].
  split; [apply keeps_didChange; [apply stable_settings|reflexivity]|].
  split; [apply keeps_didClose; [apply stable_settings|reflexivity]|].
  split; [apply keeps_publishDiagnostics, stable_settings|].
  intros c c' H. unfold settings in H. unfold running.
  now injection H as -> _ _.
Qed.

End Untouched.

(** ** Opening, changing and closing in sequence *)

Section Lifecycle.
Import LanguageClient Frame.
Context `{U : Util}.

Lemma running_kept {A : Type} (m : M A) (c : Client) :
  keeps settings m → running (snd (m c)) = running c.
Proof.
  intros H. specialize (H c). unfold settings in H. unfold running.
  now injection H as -> _ _.
Qed.

Lemma didOpen_table (nv : Nvim) (c : Client) :
  running c = true →
  filetype nv ≠ "" →
  is_Some (assoc (filetype nv) (serverCommands c)) →
  textDocuments (snd (textDocument_didOpen nv c))
  = <[pathToURI (buffer_name nv) :=
        TextDocumentItem.new (pathToURI (buffer_name nv)) (filetype nv)
          (buffer_text (getline nv))]> (textDocuments c).
Proof.
  intros Hr Hft Hcmd. unfold textDocument_didOpen, bind.
  rewrite (alive_running false c Hr). simpl.
  apply String.eqb_neq in Hft. rewrite Hft.
  rewrite (bool_decide_eq_true_2 _ Hcmd). simpl.
  match goal with
  | |- context [rpc_notify ?m ?p ?c0] =>
      now destruct (rpc_notify_frame m p c0) as (_ & -> & _)
  end.
Qed.

Lemma didOpen_running (nv : Nvim) (c : Client) :
  running (snd (textDocument_didOpen nv c)) = running c.
Proof. apply running_kept, keeps_didOpen; [apply stable_settings|reflexivity]. Qed.

Lemma didClose_running (nv : Nvim) (args : list Value) (c : Client) :
  running (snd (textDocument_didClose nv args c)) = running c.
Proof. apply running_kept, keeps_didClose; [apply stable_settings|reflexivity]. Qed.

Lemma didClose_table (nv : Nvim) (args : list Value) (c : Client) (u : string) :
  running c = true →
  fst (getArgs nv args ["uri"] c) = Return [VStr u] →
  textDocuments (snd (textDocument_didClose nv args c)) = delete u (textDocuments c).
Proof.
  intros Hr Hu. destruct (textDocuments c !! u) as [d|] eqn:Hd.
  - rewrite (didClose_tracked nv args c u Hr Hu) by eauto.
    match goal with
    | |- context [rpc_notify ?m ?p ?c0] =>
        now destruct (rpc_notify_frame m p c0) as (_ & -> & _)
    end.
  - rewrite (didClose_untracked nv args c u Hr Hu Hd). simpl.
    symmetry. now apply delete_id.
Qed.

(** X4. With a running server, opening a buffer that was not tracked and
    closing it again gives back the document table there was before,
    whether or not the two notifications could be written. *)
Theorem X4_open_close_round_trip (nv : Nvim) (c : Client) :
  running c = true →
  filetype nv ≠ "" →
  is_Some (assoc (filetype nv) (serverCommands c)) →
  textDocuments c !! pathToURI (buffer_name nv) = None →
  textDocuments
    (snd (textDocument_didClose nv [] (snd (textDocument_didOpen nv c))))
  = textDocuments c.
Proof.
  intros Hr Hft Hcmd Hnone.
  rewrite (didClose_table nv [] _ (pathToURI (buffer_name nv))).
  - rewrite (didOpen_table nv c Hr Hft Hcmd). now apply delete_insert_id.
  - now rewrite didOpen_running.
  - reflexivity.
Qed.

(** X5. With a running server, after a close of a uri that uri is not
    tracked, whether it was before or not; closing it once more raises
    [KeyError] and changes neither the document table nor the
    correlator. *)
Theorem X5_close_twice (nv : Nvim) (args : list Value) (c : Client) (u : string) :
  running c = true →
  fst (getArgs nv args ["uri"] c) = Return [VStr u] →
  let c1 := snd (textDocument_didClose nv args c) in
  let r := textDocument_didClose nv args c1 in
  textDocuments c1 !! u = None
  ∧ fst r = Raise (KeyError (VStr u))
  ∧ textDocuments (snd r) = textDocuments c1
  ∧ rpc (snd r) = rpc c1.
Proof.
  intros Hr Hu c1 r.
  assert (textDocuments c1 !! u = None) as Hnone.
  { unfold c1. rewrite (didClose_table nv args c u Hr Hu). apply lookup_delete_eq. }
  assert (running c1 = true) as Hr1 by (unfold c1; now rewrite didClose_running).
  assert (fst (getArgs nv args ["uri"] c1) = Return [VStr u]) as Hu1.
  { now rewrite (getArgs_uri_at nv args c c1 _ Hu). }
  split; [exact Hnone|]. unfold r.
  rewrite (didClose_untracked nv args c1 u Hr1 Hu1 Hnone). repeat split.
Qed.

End Lifecycle.

(** ** What the requests do not look at *)

Section Oblivious.
Import LanguageClient Frame.
Context `{U : Util}.

Lemma getArgs_any_state (nv : Nvim) (argsL : list Value) (keys : list string)
    (c c' : Client) :
  getArgs nv argsL keys c' = (fst (getArgs nv argsL keys c), c').
Proof.
  destruct (Args.is_dict (Args.first_arg argsL)) eqn:Hd.
  - destruct (Args.first_arg argsL) as [| | | | |d] eqn:Hf; try discriminate.
    now rewrite !(getArgs_dict nv argsL d keys _ Hf).
  - destruct keys as [|k keys]; [reflexivity|].
    now rewrite !(getArgs_other nv argsL (k :: keys) _ Hd).
Qed.

Lemma ignores_ret {A : Type} (a : A) : ignores_documents (ret a).
Proof. intros d c. reflexivity. Qed.

Lemma ignores_raise {A : Type} (e : Exn) : ignores_documents (@raise A e).
Proof. intros d c. reflexivity. Qed.

Lemma ignores_bind {A A' : Type} (m : M A) (k : A → M A') :
  ignores_documents m → (∀ a, ignores_documents (k a)) →
  ignores_documents (bind m k).
Proof.
  intros Hm Hk d c. unfold bind. rewrite (Hm d c).
  destruct (m c) as [[a|e] c']; simpl; [apply Hk|reflexivity].
Qed.

Lemma ignores_logger (e : LogEntry) : ignores_documents (logger e).
Proof. intros d c. reflexivity. Qed.

Lemma ignores_nvim (e : EditorCall) : ignores_documents (nvim e).
Proof. intros d c. reflexivity. Qed.

Lemma ignores_alive (warn : bool) : ignores_documents (alive warn).
Proof.
  intros d c. unfold alive. rewrite running_set_textDocuments.
  destruct (running c); [reflexivity|]. destruct warn; reflexivity.
Qed.

Lemma ignores_getArgs (nv : Nvim) (argsL : list Value) (keys : list string) :
  ignores_documents (getArgs nv argsL keys).
Proof.
  intros d c. rewrite (getArgs_any_state nv argsL keys c).
  now rewrite getArgs_state.
Qed.

Lemma ignores_rpc_call (method : string) (params : Value) (cb : Callback) :
  ignores_documents (rpc_call method params cb).
Proof.
  intros d c. unfold rpc_call. simpl. destruct (rpc c) as [r|]; [|reflexivity].
  destruct (RPC.call method params cb r) as [[e|id] r']; reflexivity.
Qed.

Lemma ignores_rpc_notify (method : string) (params : Value) :
  ignores_documents (rpc_notify method params).
Proof.
  intros d c. unfold rpc_notify. simpl. destruct (rpc c) as [r|]; [|reflexivity].
  destruct (RPC.notify method params r) as [[e|[]] r']; reflexivity.
Qed.

Lemma ignores_publish (diagnostics : list Value) :
  ignores_documents (publish diagnostics).
Proof.
  induction diagnostics as [|diagnostic rest IH]; [apply ignores_ret|].
  cbn [publish].
  apply ignores_bind;
    [unfold subscript; destruct diagnostic; try apply ignores_raise;
     destruct (assoc "message" d); [apply ignores_ret|apply ignores_raise]
    |intros m].
  apply ignores_bind;
    [unfold str_replace; destruct m; first [apply ignores_ret|apply ignores_raise]
    |intros message].
  apply ignores_bind; [apply ignores_nvim|intros _]. exact IH.
Qed.

Lemma ignores_publishDiagnostics (params : Value) :
  ignores_documents (textDocument_publishDiagnostics params).
Proof.
  unfold textDocument_publishDiagnostics.
  apply ignores_bind;
    [unfold subscript; destruct params; try apply ignores_raise;
     destruct (assoc "diagnostics" d); [apply ignores_ret|apply ignores_raise]
    |intros ds].
  apply ignores_bind;
    [unfold iterate; destruct ds; first [apply ignores_ret|apply ignores_raise]
    |intros diagnostics].
  apply ignores_publish.
Qed.

End Oblivious.

Ltac ignores_step :=
  first
    [ apply ignores_ret | apply ignores_raise
    | apply ignores_getArgs | apply ignores_logger | apply ignores_nvim
    | apply ignores_alive | apply ignores_rpc_call | apply ignores_rpc_notify
    | apply ignores_bind; [|intros ?]
    | match goal with
      | |- Frame.ignores_documents (if ?b then _ else _) => destruct b
      | |- Frame.ignores_documents (match ?x with _ => _ end) => destruct x
      end ].

Section ObliviousMethods.
Import LanguageClient Frame.
Context `{U : Util}.

(** X6. The request methods, [exit], [textDocument_didSave] and the
    diagnostics handler do not look at the document table: whether the
    buffer is tracked or not, they return the same, write the same to the
    correlator, the editor and the log, and leave the table as it is. In
    particular a save is notified for a buffer that was never opened. *)
Theorem X6_requests_ignore_documents (nv : Nvim) (args : list Value) (params : Value) :
  ignores_documents (initialize nv args)
  ∧ ignores_documents (textDocument_hover nv args)
  ∧ ignores_documents (textDocument_definition nv args)
  ∧ ignores_documents (textDocument_rename nv args)
  ∧ ignores_documents (textDocument_documentSymbol nv args)
  ∧ ignores_documents (workspace_symbol nv args)
  ∧ ignores_documents (textDocument_completion nv args)
  ∧ ignores_documents (exit args)
  ∧ ignores_documents (textDocument_didSave nv)
  ∧ ignores_documents (textDocument_publishDiagnostics params).
Proof.
  repeat split_and;
    [ unfold initialize | unfold textDocument_hover
    | unfold textDocument_definition | unfold textDocument_rename
    | unfold textDocument_documentSymbol | unfold workspace_symbol
    | unfold textDocument_completion | unfold exit
    | unfold textDocument_didSave | apply ignores_publishDiagnostics ];
    cbv zeta; repeat ignores_step.
Qed.

(** X8. With a running server, [textDocument_rename] asks the user for the
    new name exactly when the caller gave none (or gave [None]): it then
    enters inputsave, input, inputrestore, in this order, in the queue of
    the editor; when a name is given it enters nothing. In neither case
    does it queue a command. The reads of the editor that [getArgs] makes
    (getpos, the name of the buffer) are no entries of the queue and are
    not counted here. *)
Theorem X8_rename_prompts (nv : Nvim) (args : list Value)
    (d : list (string * Value)) (c : Client) :
  running c = true →
  Args.first_arg args = VDict d →
  editor (snd (textDocument_rename nv args c))
  = editor c
      ++ (if is_None (Args.arg_value nv d "newName")
          then [NvimCall "inputsave"; NvimCall "input"; NvimCall "inputrestore"]
          else []).
Proof.
  intros Hr Hd. unfold textDocument_rename. unfold bind at 1.
  rewrite (alive_running true c Hr). cbn [negb]. unfold bind at 1. cbn [logger].
  unfold bind at 1. rewrite (getArgs_dict nv args d _ _ Hd).
  change (Args.line_first false ["uri"; "line"; "character"; "newName"; "cb"])
    with true.
  cbn [map].
  destruct (is_None (Args.arg_value nv d "newName")).
  - unfold bind, nvim, rpc_call, ret. simpl.
    destruct (rpc c) as [q|]; simpl;
      [destruct (RPC.call _ _ _ q) as [[e|id] q']; simpl|];
      now rewrite <- !app_assoc.
  - unfold bind, rpc_call, ret. simpl.
    destruct (rpc c) as [q|]; simpl;
      [destruct (RPC.call _ _ _ q) as [[e|id] q']; simpl|];
      now rewrite app_nil_r.
Qed.

End ObliviousMethods.

(** ** The response handlers *)

Section SplitFacts.
Import Responses.

Lemma split_piece (sep : ascii) (t s : string) :
  Forall (λ a, a ≠ sep) (list_ascii_of_string t) →
  split sep (t ++ String sep s)%string = t :: split sep s.
Proof.
  induction t as [|a t IH]; intros Ht; simpl.
  - now rewrite Ascii.eqb_refl.
  - inversion Ht as [|? ? Ha Ht']; subst.
    apply Ascii.eqb_neq in Ha. rewrite Ha, (IH Ht'). reflexivity.
Qed.

Lemma digits_no_colon (d : Decimal.uint) :
  Forall (λ a, a ≠ ":"%char) (list_ascii_of_string (NilEmpty.string_of_uint d)).
Proof. induction d; simpl; constructor; (discriminate || assumption). Qed.

Lemma decimal_no_colon (n : Z) :
  Forall (λ a, a ≠ ":"%char) (list_ascii_of_string (decimal n)).
Proof.
  unfold decimal, NilZero.string_of_int, NilZero.string_of_uint.
  destruct (Z.to_int n) as [d|d].
  - destruct d; try apply (digits_no_colon (_ _)).
    repeat constructor. discriminate.
  - constructor; [discriminate|].
    destruct d; try apply (digits_no_colon (_ _)).
    repeat constructor. discriminate.
Qed.

(** An entry of the symbol list splits into its line, its character and
    what is left. *)
Lemma split_entry (line character : Z) (rest : string) :
  split ":" (decimal line ++ ":" ++ decimal character ++ ":" ++ rest)%string
  = decimal line :: decimal character :: split ":" rest.
Proof.
  change (decimal line ++ ":" ++ decimal character ++ ":" ++ rest)%string
    with (decimal line ++ String ":" (decimal character ++ String ":" rest))%string.
  rewrite (split_piece _ _ _ (decimal_no_colon line)).
  now rewrite (split_piece _ _ _ (decimal_no_colon character)).
Qed.

End SplitFacts.

Section Inversion.
Import LanguageClient Responses.

Lemma bind_inv {A A' : Type} (m : M A) (k : A → M A') (c c' : Client) (b : A') :
  bind m k c = (Return b, c') →
  ∃ a c1, m c = (Return a, c1) ∧ k a c1 = (Return b, c').
Proof.
  unfold bind. destruct (m c) as [[a|e] c1]; [eauto|discriminate].
Qed.

Lemma subscript_inv (v : Value) (k : string) (c c' : Client) (x : Value) :
  subscript v k c = (Return x, c') → field k v = Some x ∧ c' = c.
Proof.
  unfold subscript. destruct v; try discriminate. simpl.
  destruct (assoc k d); [|discriminate]. now intros [= -> ->].
Qed.

Lemma subscript_field (v : Value) (k : string) (c : Client) (x : Value) :
  field k v = Some x → subscript v k c = (Return x, c).
Proof.
  unfold subscript, field. destruct v; try discriminate. now intros ->.
Qed.

Lemma add1_state (v : Value) (c c' : Client) (z : Z) :
  add1 v c = (Return z, c') → c' = c ∧ ∀ c0, add1 v c0 = (Return z, c0).
Proof.
  unfold add1. destruct v; try discriminate; intros [= <- <-]; auto.
Qed.

End Inversion.

(** Takes apart a hypothesis that says a sequence of binds returned. *)
Ltac bind_inv H :=
  let a := fresh "a" in
  let c1 := fresh "c" in
  let H1 := fresh "H" in
  apply bind_inv in H as (a & c1 & H1 & H).

Section SymbolList.
Import LanguageClient Responses.
Context `{U : Util} `{R : Runtime}.

Lemma start_position_fields (v range start l ch : Value) (line character : Z)
    (c : Client) :
  field "range" v = Some range →
  field "start" range = Some start →
  field "line" start = Some l →
  add1 l c = (Return line, c) →
  field "character" start = Some ch →
  add1 ch c = (Return character, c) →
  start_position v c = (Return (line, character), c).
Proof.
  intros Hrange Hstart Hl Hline Hch Hchar. unfold start_position, bind.
  rewrite (subscript_field _ _ _ _ Hrange). cbv beta iota.
  rewrite (subscript_field _ _ _ _ Hstart). cbv beta iota.
  rewrite (subscript_field _ _ _ _ Hl). cbv beta iota.
  rewrite Hline. cbv beta iota.
  rewrite (subscript_field _ _ _ _ Hrange). cbv beta iota.
  rewrite (subscript_field _ _ _ _ Hstart). cbv beta iota.
  rewrite (subscript_field _ _ _ _ Hch). cbv beta iota.
  now rewrite Hchar.
Qed.

(** What a symbol must look like for its entry to be made, and what the
    entry is then. *)
Lemma symbol_entry_inv (sb : Value) (e : string) (c c' : Client) :
  symbol_entry sb c = (Return e, c') →
  c' = c
  ∧ ∃ name location line character,
      field "name" sb = Some name
      ∧ field "location" sb = Some location
      ∧ start_position location c = (Return (line, character), c)
      ∧ e = (decimal line ++ ":" ++ decimal character ++ ":" ++ tab
               ++ format name)%string.
Proof.
  unfold symbol_entry. intros H.
  bind_inv H. apply subscript_inv in H0 as [Hname ->].
  bind_inv H. apply subscript_inv in H0 as [Hloc ->].
  bind_inv H. apply subscript_inv in H0 as [Hrange ->].
  bind_inv H. apply subscript_inv in H0 as [Hstart ->].
  bind_inv H. apply subscript_inv in H0 as [Hl ->].
  bind_inv H. apply add1_state in H0 as [-> Hline].
  bind_inv H. apply subscript_inv in H0 as [Hch ->].
  bind_inv H. apply add1_state in H0 as [-> Hchar].
  injection H as <- <-. split; [reflexivity|].
  eexists _, _, _, _. split; [eassumption|]. split; [eassumption|].
  split; [|reflexivity].
  eapply start_position_fields; eauto.
Qed.

Lemma fzfSink_pieces (s p0 p1 : string) (pieces : list string) (line character : Z)
    (c : Client) :
  split ":" s = p0 :: p1 :: pieces →
  int p0 = Some line →
  int p1 = Some character →
  fzfSink [VStr s] c = asyncCommand (goto line character) c.
Proof.
  intros Hs H0 H1. unfold fzfSink, bind, index, ret. cbn [nth_error].
  rewrite Hs. cbn [nth_error]. now rewrite H0, H1.
Qed.

(** X9. For a symbol with a name and a location whose range starts at an
    integer line and an integer character, the entry that the symbol
    handler makes is read back by [fzfSink]: given the entry, it queues the
    jump to that line and character, counted from 1, whatever the name of
    the symbol contains. *)
Theorem X9_symbol_entry_round_trip (sb name location range start : Value)
    (l ch : Z) (c c' : Client) :
  field "name" sb = Some name →
  field "location" sb = Some location →
  field "range" location = Some range →
  field "start" range = Some start →
  field "line" start = Some (VInt l) →
  field "character" start = Some (VInt ch) →
  let e := (decimal (l + 1) ++ ":" ++ decimal (ch + 1) ++ ":" ++ tab
              ++ format name)%string in
  symbol_entry sb c = (Return e, c)
  ∧ fzfSink [VStr e] c' = asyncCommand (goto (l + 1) (ch + 1)) c'.
Proof.
  intros Hname Hloc Hrange Hstart Hl Hch e. split.
  - unfold symbol_entry, bind.
    rewrite (subscript_field _ _ _ _ Hname), (subscript_field _ _ _ _ Hloc).
    rewrite (subscript_field _ _ _ _ Hrange), (subscript_field _ _ _ _ Hstart).
    rewrite (subscript_field _ _ _ _ Hl). simpl.
    rewrite (subscript_field _ _ _ _ Hch). reflexivity.
  - apply (fzfSink_pieces _ _ _ _ _ _ _ (split_entry (l + 1) (ch + 1) _));
      apply int_decimal.
Qed.

End SymbolList.

(** The entry of a symbol whose name has colons in it is read back. *)
Lemma X9_colons_in_the_name :
  let e := ("42:8:" ++ Responses.tab ++ "std::vector")%string in
  field "name" Examples.symbol = Some (VStr "std::vector")
  ∧ field "location" Examples.symbol = Some (Examples.location "file:///a.py" 41 7)
  ∧ field "line" (Examples.position 41 7) = Some (VInt 41)
  ∧ field "character" (Examples.position 41 7) = Some (VInt 7)
  ∧ @Responses.symbol_entry Examples.runtime Examples.symbol Sample.started
    = (LanguageClient.Return e, Sample.started)
  ∧ @Responses.fzfSink Examples.runtime [VStr e] Sample.started
    = @LanguageClient.asyncCommand (Responses.goto 42 8) Sample.started.
Proof.
  intros e. do 4 (split; [reflexivity|]).
  exact (@X9_symbol_entry_round_trip Examples.runtime Examples.symbol
           (VStr "std::vector") (Examples.location "file:///a.py" 41 7)
           (VDict [("start", Examples.position 41 7);
                   ("end", Examples.position 41 8)])
           (Examples.position 41 7) 41 7 Sample.started Sample.started
           eq_refl eq_refl eq_refl eq_refl eq_refl eq_refl).
Defined.

(** ** Handlers that do all or nothing *)

Section Atomic.
Import LanguageClient Frame Responses.
Context `{U : Util} `{R : Runtime}.

Lemma atomic_pure {A : Type} (m : M A) : keeps (λ c, c) m → atomic m.
Proof. intros H c e _. apply H. Qed.

Lemma atomic_bind {A A' : Type} (m : M A) (k : A → M A') :
  keeps (λ c, c) m → (∀ a, atomic (k a)) → atomic (bind m k).
Proof.
  intros Hm Hk c e. unfold bind. specialize (Hm c).
  destruct (m c) as [[a|e'] c1]; simpl in *; subst c1; [apply Hk|reflexivity].
Qed.

Lemma atomic_returns {A : Type} (m : M A) :
  (∀ c, ∃ a, fst (m c) = Return a) → atomic m.
Proof. intros H c e He. destruct (H c) as [a Ha]. congruence. Qed.

Lemma pure_subscript (v : Value) (k : string) : keeps (λ c, c) (subscript v k).
Proof. intros c. unfold subscript. destruct v; try reflexivity. now destruct (assoc k d). Qed.

Lemma pure_iterate (v : Value) : keeps (λ c, c) (iterate v).
Proof. intros c. now destruct v. Qed.

Lemma pure_add1 (v : Value) : keeps (λ c, c) (add1 v).
Proof. intros c. now destruct v. Qed.

Lemma pure_len (v : Value) : keeps (λ c, c) (len v).
Proof. intros c. now destruct v. Qed.

Lemma pure_str_add (value : string) (x : Value) : keeps (λ c, c) (str_add value x).
Proof. intros c. now destruct x. Qed.

Lemma pure_markedStringToString (s : Value) :
  keeps (λ c, c) (markedStringToString s).
Proof. destruct s; first [apply keeps_ret|apply pure_subscript]. Qed.

Lemma pure_hover_value (contents : list Value) (value : string) :
  keeps (λ c, c) (hover_value value contents).
Proof.
  revert value; induction contents as [|v l IH]; intros value; [apply keeps_ret|].
  cbn [hover_value].
  apply keeps_bind; [apply pure_markedStringToString|intros x].
  apply keeps_bind; [apply pure_str_add|intros value']. apply IH.
Qed.

Lemma pure_symbol_entry (sb : Value) : keeps (λ c, c) (symbol_entry sb).
Proof.
  unfold symbol_entry.
  repeat first [ apply keeps_ret | apply pure_subscript | apply pure_add1
               | apply keeps_bind; [|intros ?] ].
Qed.

Lemma pure_symbol_entries (symbols : list Value) :
  keeps (λ c, c) (symbol_entries symbols).
Proof.
  induction symbols as [|sb l IH]; [apply keeps_ret|]. cbn [symbol_entries].
  apply keeps_bind; [apply pure_symbol_entry|intros entry].
  apply keeps_bind; [exact IH|intros source]. apply keeps_ret.
Qed.

Lemma asyncEcho_returns (message : string) (c : Client) :
  ∃ a, fst (asyncEcho message c) = Return a.
Proof. now exists tt. Qed.

Lemma atomic_fzfSink (args : list Value) : atomic (fzfSink args).
Proof.
  unfold fzfSink. cbv zeta.
  apply atomic_bind; [intros c; unfold index; now destruct (nth_error args 0)|intros a].
  apply atomic_bind; [intros c; now destruct a|intros splitted].
  apply atomic_bind; [intros c; now destruct (nth_error splitted 0)|intros s0].
  apply atomic_bind; [intros c; now destruct (int s0)|intros line].
  apply atomic_bind; [intros c; now destruct (nth_error splitted 1)|intros s1].
  apply atomic_bind; [intros c; now destruct (int s1)|intros character].
  apply atomic_returns. intros c. now exists tt.
Qed.

(** X10. The handlers of the hover, document symbol, workspace symbol and
    initialize responses and the sink of the symbol list do all or
    nothing: when one of them raises (a missing key, a value of the wrong
    type, an entry that does not split into two numbers), the client is
    exactly as it was, nothing is queued or echoed and the capabilities
    are not replaced. *)
Theorem X10_handlers_all_or_nothing (result : Value) (args : list Value) :
  atomic (handleTextDocumentHoverResponse result)
  ∧ atomic (handleTextDocumentDocumentSymbolResponse result)
  ∧ atomic (handleWorkspaceSymbolResponse result)
  ∧ atomic (handleInitializeResponse result)
  ∧ atomic (fzfSink args).
Proof.
  repeat split_and; [| | | |apply atomic_fzfSink].
  - unfold handleTextDocumentHoverResponse. cbv zeta.
    apply atomic_bind; [apply pure_subscript|intros contents].
    apply atomic_bind; [|intros value; apply atomic_returns, asyncEcho_returns].
    destruct contents;
      try (apply keeps_bind; [apply pure_markedStringToString|intros x];
           apply pure_str_add).
    apply keeps_bind; [apply pure_subscript|intros again].
    apply keeps_bind; [apply pure_iterate|intros l0]. apply pure_hover_value.
  - unfold handleTextDocumentDocumentSymbolResponse.
    apply atomic_bind; [apply pure_iterate|intros l].
    apply atomic_bind; [apply pure_symbol_entries|intros source].
    apply atomic_returns. intros c. now exists tt.
  - unfold handleWorkspaceSymbolResponse.
    apply atomic_bind; [apply pure_len|intros n].
    apply atomic_returns, asyncEcho_returns.
  - unfold handleInitializeResponse.
    apply atomic_bind; [apply pure_subscript|intros capabilities].
    apply atomic_returns. intros c. now exists tt.
Qed.

End Atomic.

(** ** The hover response *)

Section Hover.
Import LanguageClient Responses.
Context `{U : Util}.

Lemma markedStringToString_marked (v : Value) (text : string) (c : Client) :
  marked v text → markedStringToString v c = (Return (VStr text), c).
Proof.
  intros [->|(d & -> & Hd)]; [reflexivity|].
  unfold markedStringToString, subscript. now rewrite Hd.
Qed.

Lemma string_app_nil_r (s : string) : (s ++ "")%string = s.
Proof.
  induction s as [|a s IH]; [reflexivity|].
  change (String a (s ++ "")%string = String a s). now rewrite IH.
Qed.

Lemma string_app_assoc (a b c : string) : ((a ++ b) ++ c = a ++ b ++ c)%string.
Proof.
  induction a as [|x a IH]; [reflexivity|].
  change (String x ((a ++ b) ++ c)%string = String x (a ++ b ++ c)%string).
  now rewrite IH.
Qed.

Lemma concat_cons (t : string) (ts : list string) :
  String.concat "" (t :: ts) = (t ++ String.concat "" ts)%string.
Proof. destruct ts; simpl; [now rewrite string_app_nil_r|reflexivity]. Qed.

Lemma hover_value_marked (contents : list Value) (texts : list string)
    (value : string) (c : Client) :
  Forall2 marked contents texts →
  hover_value value contents c
  = (Return (value ++ String.concat "" texts)%string, c).
Proof.
  intros H. revert value. induction H as [|v text l texts Hv Hl IH]; intros value.
  - simpl. unfold ret. now rewrite string_app_nil_r.
  - cbn [hover_value]. unfold bind at 1.
    rewrite (markedStringToString_marked v text c Hv).
    unfold bind at 1. simpl str_add. unfold ret at 1. rewrite IH.
    now rewrite concat_cons, string_app_assoc.
Qed.

(** X11. For a hover whose contents are a list of marked strings (each a
    [str] or a dict with a [str] value), the handler echoes once, and what
    it echoes is the texts put together in order with nothing between
    them. *)
Theorem X11_hover_echoes_the_texts (d : list (string * Value))
    (contents : list Value) (texts : list string) (c : Client) :
  assoc "contents" d = Some (VList contents) →
  Forall2 marked contents texts →
  handleTextDocumentHoverResponse (VDict d) c
  = asyncEcho (String.concat "" texts) c.
Proof.
  intros Hd Hm. unfold handleTextDocumentHoverResponse, bind, subscript.
  rewrite Hd. simpl. rewrite ?Hd. simpl.
  now rewrite (hover_value_marked contents texts "" c Hm).
Qed.

(** X12. Contents that are one marked string and contents that are the
    list of that one marked string are handled alike, whether the handler
    returns or raises. *)
Theorem X12_hover_one_or_a_list (d d' : list (string * Value)) (v : Value)
    (c : Client) :
  assoc "contents" d = Some v →
  assoc "contents" d' = Some (VList [v]) →
  is_list v = false →
  handleTextDocumentHoverResponse (VDict d) c
  = handleTextDocumentHoverResponse (VDict d') c.
Proof.
  intros Hd Hd' Hv. unfold handleTextDocumentHoverResponse, bind, subscript.
  rewrite Hd, Hd'. simpl. rewrite ?Hd'. simpl.
  assert (∀ (o : Outcome Value * Client),
            (let (o0, c') := o in
             match o0 with
             | Return a =>
                 let (o1, c'0) := str_add "" a c' in
                 match o1 with
                 | Return a0 => ret a0 c'0
                 | Raise e => (Raise e, c'0)
                 end
             | Raise e => (Raise e, c')
             end)
            = (let (o0, c') := o in
               match o0 with
               | Return a => str_add "" a c'
               | Raise e => (Raise e, c')
               end)) as Hret.
  { intros [[a|e] c']; [|reflexivity]. now destruct (str_add "" a c') as [[]]. }
  destruct v; try discriminate; simpl; try reflexivity;
    unfold bind; now rewrite Hret.
Qed.

End Hover.

(** ** The definition response and [applyChanges] *)

Section Jumps.
Import LanguageClient Frame Responses.
Context `{U : Util} `{R : Runtime}.

Lemma start_position_ints (v range start : Value) (l ch : Z) (c : Client) :
  field "range" v = Some range →
  field "start" range = Some start →
  field "line" start = Some (VInt l) →
  field "character" start = Some (VInt ch) →
  start_position v c = (Return (l + 1, ch + 1), c).
Proof.
  intros Hrange Hstart Hl Hch.
  now apply (start_position_fields v range start (VInt l) (VInt ch)).
Qed.

(** X13. Given a list of definitions whose first one has a uri that
    [uriToPath] accepts and a range with integer start, the handler queues
    the edit of that file and the jump to the start of the range, lines and
    characters counted from 1 for the editor; the other definitions are not
    looked at, a warning is logged when there are any. *)
Theorem X13_definition_goes_to_the_first (defn : Value) (rest : list Value)
    (u range start : Value) (path : string) (l ch : Z) (c : Client) :
  field "uri" defn = Some u →
  uriToPath u = inr path →
  field "range" defn = Some range →
  field "start" range = Some start →
  field "line" start = Some (VInt l) →
  field "character" start = Some (VInt ch) →
  handleTextDocumentDefinitionResponse (VList (defn :: rest)) c
  = bind (match rest with
          | [] => ret tt
          | _ :: _ =>
              logger (Warn "Handling multiple definition are not implemented yet.")
          end)
      (λ _, bind (asyncCommand ("edit " ++ path))
              (λ _, asyncCommand (goto (l + 1) (ch + 1)))) c.
Proof.
  intros Hu Hpath Hrange Hstart Hl Hch.
  pose proof (λ c0, start_position_ints defn range start l ch c0 Hrange Hstart Hl Hch)
    as Hpos.
  unfold field in Hu. destruct defn as [| | | | |dd]; try discriminate.
  unfold handleTextDocumentDefinitionResponse, bind, path_of, ret.
  destruct rest as [|d2 rest]; simpl; rewrite Hu; simpl; rewrite Hpath; simpl;
    now rewrite Hpos.
Qed.

(** X14. When the first definition has a uri that [uriToPath] accepts but
    no range, the edit of the file is queued all the same and then
    [KeyError] is raised: the file is opened and the cursor is not moved. *)
Theorem X14_definition_without_range (defn : Value) (rest : list Value)
    (u : Value) (path : string) (c : Client) :
  field "uri" defn = Some u →
  uriToPath u = inr path →
  field "range" defn = None →
  handleTextDocumentDefinitionResponse (VList (defn :: rest)) c
  = (Raise (KeyError (VStr "range")),
     snd (bind (match rest with
                | [] => ret tt
                | _ :: _ =>
                    logger
                      (Warn "Handling multiple definition are not implemented yet.")
                end)
            (λ _, asyncCommand ("edit " ++ path)) c)).
Proof.
  intros Hu Hpath Hrange.
  unfold field in Hu, Hrange. destruct defn as [| | | | |dd]; try discriminate.
  unfold handleTextDocumentDefinitionResponse, bind, path_of, ret, start_position.
  destruct rest as [|d2 rest]; simpl; rewrite Hu; simpl; rewrite Hpath; simpl;
    unfold bind; simpl; now rewrite Hrange.
Qed.

Lemma queued_queued (l1 l2 : list EditorCall) (c : Client) :
  queued l2 (queued l1 c) = queued (l1 ++ l2) c.
Proof. unfold queued. simpl. now rewrite app_assoc. Qed.

Lemma nvim_queued (e : EditorCall) (c : Client) :
  nvim e c = (Return tt, queued [e] c).
Proof. reflexivity. Qed.

Lemma queued_nil (c : Client) : queued [] c = c.
Proof. destruct c. unfold queued. simpl. now rewrite app_nil_r. Qed.

Lemma pure_inv {A : Type} (m : M A) (c c' : Client) (o : Outcome A) :
  keeps (λ c, c) m → m c = (o, c') → c' = c.
Proof. intros H E. specialize (H c). rewrite E in H. exact H. Qed.








End Jumps.

(** ** Diagnostics and the dispatch of server messages *)

Section Diagnostics.
Import LanguageClient Frame Responses.
Context `{U : Util}.

Lemma publish_echoes (good rest : list Value) (msgs : list string) (c : Client) :
  Forall2 (λ v m, diagnostic_text v = Some m) good msgs →
  publish (good ++ rest) c = publish rest (queued (map echoed msgs) c).
Proof.
  intros H. revert c. induction H as [|v m good msgs Hv Hgood IH]; intros c.
  - simpl. now rewrite queued_nil.
  - simpl app. cbn [publish]. unfold diagnostic_text, field in Hv.
    destruct v as [| | | | |dv]; try discriminate.
    destruct (assoc "message" dv) as [[| | |s| |]|] eqn:Hm; try discriminate.
    injection Hv as ->.
    unfold bind at 1. unfold subscript. rewrite Hm. unfold ret at 1.
    unfold bind at 1. simpl str_replace. unfold ret at 1.
    unfold bind at 1. unfold asyncEcho, asyncCommand. rewrite nvim_queued.
    rewrite IH, queued_queued. reflexivity.
Qed.

Lemma publish_stops (bad : Value) (rest : list Value) (c : Client) :
  diagnostic_text bad = None →
  snd (publish (bad :: rest) c) = c ∧ ∃ e, fst (publish (bad :: rest) c) = Raise e.
Proof.
  intros H. cbn [publish]. unfold diagnostic_text, field in H.
  unfold bind at 1 3, subscript.
  destruct bad as [| | | | |dv]; try (split; [reflexivity|eexists; reflexivity]).
  destruct (assoc "message" dv) as [[| | |s| |]|] eqn:Hm; try discriminate;
    split; try reflexivity; eexists; reflexivity.
Qed.

(** X16. The diagnostics handler echoes the messages in order, each with
    its newlines replaced by a full stop and a blank, up to the first
    diagnostic that has no [str] message: there it raises, and the
    diagnostics after it are not shown. With no such diagnostic it returns
    after one echo per diagnostic. Nothing but the editor queue changes. *)
Theorem X16_diagnostics_up_to_the_first_bad (d : list (string * Value))
    (good rest : list Value) (msgs : list string) (c : Client) :
  assoc "diagnostics" d = Some (VList (good ++ rest)) →
  Forall2 (λ v m, diagnostic_text v = Some m) good msgs →
  match rest with
  | [] => True
  | bad :: _ => diagnostic_text bad = None
  end →
  let r := textDocument_publishDiagnostics (VDict d) c in
  snd r = queued (map echoed msgs) c
  ∧ match rest with
    | [] => fst r = Return tt
    | _ :: _ => ∃ e, fst r = Raise e
    end.
Proof.
  intros Hd Hgood Hrest r. unfold r, textDocument_publishDiagnostics.
  unfold bind, subscript, ret. rewrite Hd. cbn [iterate]. unfold ret.
  rewrite (publish_echoes good rest msgs c Hgood).
  destruct rest as [|bad rest].
  - split; reflexivity.
  - apply (publish_stops bad rest), Hrest.
Qed.

(** [replace] leaves no occurrence of the character it replaces when the
    replacement has none, and gives back a string in which the character
    does not occur. *)
Lemma replace_leaves_none (old : ascii) (new s : string) :
  (¬ In old (list_ascii_of_string new) →
   ¬ In old (list_ascii_of_string (replace old new s)))
  ∧ (¬ In old (list_ascii_of_string s) → replace old new s = s).
Proof.
  assert (∀ a b : string, list_ascii_of_string (a ++ b)
                          = list_ascii_of_string a ++ list_ascii_of_string b) as Happ.
  { intros a b. induction a as [|x a IH]; [reflexivity|].
    change (x :: list_ascii_of_string (a ++ b)%string
            = x :: (list_ascii_of_string a ++ list_ascii_of_string b)).
    now rewrite IH. }
  split.
  - intros Hnew. induction s as [|a s IH]; simpl; [tauto|].
    destruct (Ascii.eqb a old) eqn:Ha.
    + rewrite Happ, in_app_iff. tauto.
    + apply Ascii.eqb_neq in Ha. simpl. intros [->|H]; tauto.
  - induction s as [|a s IH]; simpl; [reflexivity|]. intros H.
    destruct (Ascii.eqb a old) eqn:Ha.
    + apply Ascii.eqb_eq in Ha. tauto.
    + rewrite IH; tauto.
Qed.

(** X17. [handleRequestOrNotification] looks up no attribute under a name
    with a slash in it: two client objects that have the same under every
    name without a slash handle every message alike, whatever they have
    under the other names; and a message whose method has no slash and is
    no attribute of the client is answered by the warning that names the
    method as it came. *)
Theorem X17_no_lookup_with_a_slash
    (attribute attribute' : string → option (Value → M unit))
    (message : Value) (c : Client) :
  (∀ name, ¬ In "/"%char (list_ascii_of_string name) →
           attribute name = attribute' name) →
  handleRequestOrNotification attribute message c
  = handleRequestOrNotification attribute' message c
  ∧ ∀ m, field "method" message = Some (VStr m) →
         ¬ In "/"%char (list_ascii_of_string m) →
         attribute m = None →
         handleRequestOrNotification attribute message c
         = logger (Warn ("no handler implemented for " ++ m)) c.
Proof.
  intros Hsame.
  assert (¬ In "/"%char (list_ascii_of_string "_")) as Hnew
    by (simpl; intros [H|[]]; discriminate).
  split.
  - unfold handleRequestOrNotification, bind, subscript.
    destruct message as [| | | | |d]; try reflexivity.
    destruct (assoc "method" d) as [v|]; [|reflexivity].
    destruct v as [| | |m| |]; try reflexivity. simpl.
    now rewrite (Hsame _ (proj1 (replace_leaves_none "/" "_" m) Hnew)).
  - intros m Hm Hslash Hnone.
    unfold handleRequestOrNotification, bind.
    rewrite (subscript_field _ _ _ _ Hm). simpl.
    rewrite (proj2 (replace_leaves_none "/" "_" m) Hslash).
    now rewrite Hnone.
Qed.

(** X18. The [try] of [handleRequestOrNotification] does not cover the
    lookup of the method: a message without a method raises [KeyError] and
    one whose method is not a [str] raises [AttributeError], out of the
    handler, with nothing logged and the client as it was. *)
Theorem X18_method_lookup_is_not_caught
    (attribute : string → option (Value → M unit))
    (d : list (string * Value)) (c : Client) :
  match assoc "method" d with
  | None =>
      handleRequestOrNotification attribute (VDict d) c
      = (Raise (KeyError (VStr "method")), c)
  | Some (VStr _) => True
  | Some _ =>
      handleRequestOrNotification attribute (VDict d) c
      = (Raise (AttributeError "replace"), c)
  end.
Proof.
  unfold handleRequestOrNotification, bind, subscript.
  destruct (assoc "method" d) as [[]|]; trivial.
Qed.

End Diagnostics.

(** ** Starting the server *)

Section StartFacts.
Import LanguageClient Frame Startup.
Context `{U : Util}.

(** X19. A start on a client that does not run, for a filetype that has a
    command whose process stays alive, ends with the process as server and
    the buffer tracked, and with a fresh correlator that was given the
    initialize request, with [handleInitializeResponse] as its callback,
    and then the didOpen notification of the buffer. *)
Theorem X19_start_tracks_the_buffer (nv : Nvim) (Popen : Spawn) (c : Client)
    (command : Value) (s : Server) (stderr : string) :
  running c = false →
  filetype nv ≠ "" →
  assoc (filetype nv) (serverCommands c) = Some command →
  Popen command = inr (s, stderr) →
  poll s = None →
  let r := start nv Popen c in
  let u := pathToURI (buffer_name nv) in
  let item := TextDocumentItem.new u (filetype nv) (buffer_text (getline nv)) in
  let asked :=
    RPC.call "initialize"
      (VDict [("processId", VInt getpid);
              ("rootPath", VStr (getRootPath (buffer_name nv)));
              ("rootUri", VStr (pathToURI (getRootPath (buffer_name nv))));
              ("capabilities", VDict []);
              ("trace", VStr "verbose")])
      (CbMethod "handleInitializeResponse") RPC.init in
  let told :=
    RPC.notify "textDocument/didOpen"
      (VDict [("textDocument", VDict [("textDocument", item_dict item)])])
      (snd asked) in
  fst r = Return tt
  ∧ server (snd r) = Some s
  ∧ textDocuments (snd r) = <[u := item]> (textDocuments c)
  ∧ rpc (snd r) = Some (snd told).
Proof.
  intros Hr Hft Hcmd Hpopen Hpoll r u item asked told.
  unfold told, asked, r, start, bind.
  rewrite (alive_quiet c Hr). simpl.
  apply String.eqb_neq in Hft. rewrite Hft, Hcmd, Hpopen.
  unfold alive, running, bind. simpl. rewrite Hpoll. simpl.
  unfold initialize, textDocument_didOpen, alive, running, bind. simpl.
  repeat (first [rewrite Hpoll|rewrite Hft|rewrite Hcmd]; simpl).
  repeat split.
Qed.

(** X20. A start that gets no live process leaves the correlator and the
    document table as they were and the client not running: when the
    filetype is empty or has no command, when [Popen] raises, and when the
    process has exited after the wait. A start on a client that runs only
    echoes that it has started already. *)
Theorem X20_start_without_a_live_process (nv : Nvim) (Popen : Spawn) (c : Client) :
  (running c = true →
   start nv Popen c = asyncEcho "Language client has already started." c)
  ∧ (running c = false →
     (filetype nv = "" ∨ assoc (filetype nv) (serverCommands c) = None)
     ∨ (∃ command what,
          assoc (filetype nv) (serverCommands c) = Some command
          ∧ Popen command = inl what)
     ∨ (∃ command s stderr code,
          assoc (filetype nv) (serverCommands c) = Some command
          ∧ Popen command = inr (s, stderr)
          ∧ poll s = Some code) →
     let r := start nv Popen c in
     running (snd r) = false
     ∧ rpc (snd r) = rpc c
     ∧ textDocuments (snd r) = textDocuments c).
Proof.
  split.
  - intros Hr. unfold start, bind. now rewrite (alive_running false c Hr).
  - intros Hr Hcase r. unfold r, start, bind.
    rewrite (alive_quiet c Hr). simpl.
    destruct (String.eqb (filetype nv) "") eqn:Hft.
    { simpl. unfold running in *. simpl. auto. }
    destruct Hcase as [[Hempty|Hnone]|[(command & what & Hcmd & Hpopen)
                                      |(command & s & stderr & code & Hcmd & Hpopen & Hpoll)]].
    + apply String.eqb_neq in Hft. contradiction.
    + rewrite Hnone. simpl. unfold running in *. simpl. auto.
    + rewrite Hcmd, Hpopen. simpl. unfold running in *. simpl. auto.
    + rewrite Hcmd, Hpopen. unfold alive, running, bind. simpl.
      rewrite Hpoll. simpl. rewrite Hpoll. auto.
Qed.

End StartFacts.

(** ** The correlator is there whenever it is asked for *)

Section Connected.
Import LanguageClient Frame Startup.
Context `{U : Util}.

Lemma finds_ret {A : Type} (a : A) : finds_rpc (ret a).
Proof. intros c Hc. split; [exact Hc|discriminate]. Qed.

Lemma finds_raise {A : Type} (e : Exn) :
  e ≠ AttributeError "rpc" → finds_rpc (@raise A e).
Proof. intros He c Hc. split; [exact Hc|]. simpl. congruence. Qed.

Lemma finds_bind {A A' : Type} (m : M A) (k : A → M A') :
  finds_rpc m → (∀ a, finds_rpc (k a)) → finds_rpc (bind m k).
Proof.
  intros Hm Hk c Hc. unfold bind. destruct (Hm c Hc) as [Hready Hne].
  destruct (m c) as [[a|e] c1]; simpl in *; [now apply Hk|].
  split; [assumption|]. intros [= ->]. now apply Hne.
Qed.

Lemma finds_logger (e : LogEntry) : finds_rpc (logger e).
Proof. intros c Hc. split; [exact Hc|discriminate]. Qed.

Lemma finds_nvim (e : EditorCall) : finds_rpc (nvim e).
Proof. intros c Hc. split; [exact Hc|discriminate]. Qed.

Lemma finds_getArgs (nv : Nvim) (argsL : list Value) (keys : list string) :
  finds_rpc (getArgs nv argsL keys).
Proof.
  intros c Hc. rewrite getArgs_state. split; [exact Hc|].
  destruct (Args.is_dict (Args.first_arg argsL)) eqn:Hd.
  - destruct (Args.first_arg argsL) as [| | | | |d] eqn:Hf; try discriminate.
    rewrite (getArgs_dict nv argsL d keys c Hf).
    now destruct (Args.line_first false keys).
  - destruct keys as [|k keys]; [discriminate|].
    now rewrite (getArgs_other nv argsL (k :: keys) c Hd).
Qed.

Lemma finds_rpc_call (method : string) (params : Value) (cb : Callback) :
  finds_rpc (rpc_call method params cb).
Proof.
  intros c [Hr [q Hq]]. unfold rpc_call, RPC.call. rewrite Hq.
  destruct (RPC.closed q); simpl; (split; [split; [exact Hr|eauto]|discriminate]).
Qed.

Lemma finds_rpc_notify (method : string) (params : Value) :
  finds_rpc (rpc_notify method params).
Proof.
  intros c [Hr [q Hq]]. unfold rpc_notify, RPC.notify. rewrite Hq.
  destruct (RPC.closed q); simpl; (split; [split; [exact Hr|eauto]|discriminate]).
Qed.

Lemma finds_alive (warn : bool) : finds_rpc (alive warn).
Proof.
  intros c Hc. unfold alive. destruct Hc as [Hr Hq]. rewrite Hr.
  split; [now split|discriminate].
Qed.

Lemma finds_set_textDocuments (g : Client → gmap string TextDocumentItem.t) :
  finds_rpc (λ c, ret tt (set_textDocuments (g c) c)).
Proof. intros c Hc. split; [exact Hc|discriminate]. Qed.

Lemma finds_state_match {A : Type} (m : Client → M A) :
  (∀ c0, finds_rpc (m c0)) → finds_rpc (λ c, m c c).
Proof. intros H c. apply H. Qed.

End Connected.

Ltac finds_step :=
  first
    [ apply finds_ret | apply finds_raise; discriminate
    | apply finds_getArgs | apply finds_logger | apply finds_nvim
    | apply finds_alive | apply finds_rpc_call | apply finds_rpc_notify
    | apply finds_bind; [|intros ?]
    | match goal with
      | |- Startup.finds_rpc (if ?b then _ else _) => destruct b
      | |- Startup.finds_rpc (match ?x with _ => _ end) => destruct x
      end ].

Section ConnectedMethods.
Import LanguageClient Frame Startup.
Context `{U : Util}.

Lemma finds_requests (nv : Nvim) (args : list Value) :
  finds_rpc (initialize nv args)
  ∧ finds_rpc (textDocument_hover nv args)
  ∧ finds_rpc (textDocument_definition nv args)
  ∧ finds_rpc (textDocument_rename nv args)
  ∧ finds_rpc (textDocument_documentSymbol nv args)
  ∧ finds_rpc (workspace_symbol nv args)
  ∧ finds_rpc (textDocument_completion nv args)
  ∧ finds_rpc (exit args)
  ∧ finds_rpc (textDocument_didSave nv).
Proof.
  repeat split_and;
    [ unfold initialize | unfold textDocument_hover
    | unfold textDocument_definition | unfold textDocument_rename
    | unfold textDocument_documentSymbol | unfold workspace_symbol
    | unfold textDocument_completion | unfold exit
    | unfold textDocument_didSave ];
    cbv zeta; unfold unpack_error; repeat finds_step.
Qed.

Lemma finds_didOpen (nv : Nvim) : finds_rpc (textDocument_didOpen nv).
Proof.
  unfold textDocument_didOpen. cbv zeta. unfold unpack_error.
  apply finds_bind; [apply finds_alive|intros a].
  destruct a; cbn [negb]; [|apply finds_ret].
  apply finds_bind; [apply finds_logger|intros _].
  intros c Hc. destruct (_ || _); [now apply finds_ret|].
  revert c Hc. apply finds_bind; [apply finds_getArgs|intros res].
  destruct res as [|uri res]; [apply finds_raise; discriminate|].
  destruct res; [|destruct uri; apply finds_raise; discriminate].
  destruct uri; try (apply finds_raise; discriminate); try apply finds_ret.
  apply finds_bind; [|intros _; apply finds_rpc_notify].
  intros c Hc. split; [exact Hc|discriminate].
Qed.

Lemma finds_didChange (nv : Nvim) : finds_rpc (textDocument_didChange nv).
Proof.
  unfold textDocument_didChange. unfold unpack_error.
  apply finds_bind; [apply finds_alive|intros a].
  destruct a; cbn [negb]; [|apply finds_ret].
  apply finds_bind; [apply finds_logger|intros _].
  apply finds_bind; [apply finds_getArgs|intros res].
  destruct res as [|uri res]; [apply finds_raise; discriminate|].
  destruct res; [|destruct uri; apply finds_raise; discriminate].
  destruct uri; try (apply finds_raise; discriminate); try apply finds_ret.
  intros c Hc. destruct (textDocuments c !! s) as [d|]; [|now apply finds_ret].
  revert c Hc. apply finds_bind; [|intros vc; apply finds_rpc_notify].
  intros c Hc. unfold change_textDocument. simpl. split; [exact Hc|discriminate].
Qed.

Lemma finds_didClose (nv : Nvim) (args : list Value) :
  finds_rpc (textDocument_didClose nv args).
Proof.
  unfold textDocument_didClose. unfold unpack_error.
  apply finds_bind; [apply finds_alive|intros a].
  destruct a; cbn [negb]; [|apply finds_ret].
  apply finds_bind; [apply finds_logger|intros _].
  apply finds_bind; [apply finds_getArgs|intros res].
  destruct res as [|uri res]; [apply finds_raise; discriminate|].
  destruct res; [|apply finds_raise; discriminate].
  apply finds_bind; [|intros _; apply finds_rpc_notify].
  intros c Hc. unfold del_textDocument.
  destruct uri; try (split; [exact Hc|discriminate]).
  destruct (textDocuments c !! s); split; first [exact Hc|discriminate].
Qed.

(** A method that a client that does not run leaves not running, and that
    finds the correlator when the client is ready, keeps the client
    connected and does not fail for want of the correlator. *)
Lemma connected_method {A : Type} (m : M A) (c : Client) :
  keeps settings m →
  finds_rpc m →
  (running c = false → rpc (snd (m c)) = rpc c
                       ∧ fst (m c) ≠ Raise (AttributeError "rpc")) →
  connected c →
  connected (snd (m c)) ∧ fst (m c) ≠ Raise (AttributeError "rpc").
Proof.
  intros Hkeep Hfind Hgate Hc. destruct (running c) eqn:Hr.
  - destruct (Hfind c (conj Hr (Hc Hr))) as [[_ Hq] Hne].
    split; [intros _; exact Hq|exact Hne].
  - destruct (Hgate eq_refl) as [Hrpc Hne]. split; [|exact Hne].
    intros Hr'. rewrite (running_kept m c Hkeep), Hr in Hr'. discriminate.
Qed.

Lemma gated_connected {A : Type} (a : A) (c : Client) (r : Outcome A * Client) :
  gated a c r → rpc (snd r) = rpc c ∧ fst r ≠ Raise (AttributeError "rpc").
Proof. intros (Hret & Hrpc & _). split; [exact Hrpc|]. rewrite Hret. discriminate. Qed.

End ConnectedMethods.

Section Histories.
Import LanguageClient Frame Startup.
Context `{U : Util}.

Lemma quiet_connected {A : Type} (a : A) (k : M A) (c : Client) :
  running c = false →
  let r := bind (alive false) (λ b, if negb b then ret a else k) c in
  rpc (snd r) = rpc c ∧ fst r ≠ Raise (AttributeError "rpc").
Proof.
  intros Hr. unfold bind. rewrite (alive_quiet c Hr). simpl.
  split; [reflexivity|discriminate].
Qed.

Lemma ready_start_body (nv : Nvim) (c : Client) :
  ready c →
  let r := bind (initialize nv []) (λ _, textDocument_didOpen nv) c in
  ready (snd r) ∧ fst r ≠ Raise (AttributeError "rpc").
Proof.
  intros Hc. apply finds_bind; [apply finds_requests|intros _; apply finds_didOpen|exact Hc].
Qed.

Lemma connected_start (nv : Nvim) (Popen : Spawn) (c : Client) :
  connected c →
  connected (snd (start nv Popen c))
  ∧ fst (start nv Popen c) ≠ Raise (AttributeError "rpc").
Proof.
  intros Hc. unfold start, bind. destruct (running c) eqn:Hr.
  - rewrite (alive_running false c Hr). simpl. split; [|discriminate].
    intros _. exact (Hc Hr).
  - rewrite (alive_quiet c Hr). simpl.
    destruct (if String.eqb (filetype nv) "" then None else _) as [command|];
      [|simpl; split; [|discriminate]; intros Hr'; unfold running in *;
        simpl in *; congruence].
    destruct (Popen command) as [what|[s stderr]];
      [simpl; split; [|discriminate]; intros Hr'; unfold running in *;
       simpl in *; congruence|].
    unfold alive at 1 2. simpl.
    destruct (poll s) as [code|] eqn:Hpoll.
    + assert (running (set_server s (snd (logger (Info "start") c))) = false) as Hs
        by (unfold running; simpl; now rewrite Hpoll).
      simpl in Hs. rewrite Hs. simpl. split; [|discriminate].
      intros Hr'. unfold running in Hr'. simpl in Hr'. rewrite Hpoll in Hr'. discriminate.
    + assert (running (set_server s (snd (logger (Info "start") c))) = true) as Hs
        by (unfold running; simpl; now rewrite Hpoll).
      simpl in Hs. rewrite Hs. simpl.
      match goal with
      | |- context [initialize nv [] ?c0] =>
          pose proof (ready_start_body nv c0) as Hbody
      end.
      unfold bind in Hbody. simpl in Hbody.
      destruct Hbody as [[Hr1 Hq1] Hne].
      { split; [unfold running; simpl; now rewrite Hpoll|now eexists]. }
      split; [intros _; exact Hq1|exact Hne].
Qed.

Lemma connected_happen (ev : Event) (c : Client) :
  connected c →
  connected (snd (happen ev c)) ∧ fst (happen ev c) ≠ Some (AttributeError "rpc").
Proof.
  intros Hc.
  assert (∀ (A : Type) (r : Outcome A * Client),
            connected (snd r) ∧ fst r ≠ Raise (AttributeError "rpc") →
            connected (snd (forget r)) ∧ fst (forget r) ≠ Some (AttributeError "rpc"))
    as Hforget.
  { intros A [[a|e] c'] [H1 H2]; simpl in *; split; try assumption; congruence. }
  destruct ev as [nv Popen|nv args|nv|nv|nv|nv args|nv args|nv args|nv args
                 |nv args|nv args|nv args|args|code];
    cbn [happen]; try apply Hforget.
  - now apply connected_start.
  - destruct (keeps_requests settings stable_settings nv args) as (K & _).
    destruct (finds_requests nv args) as (F & _).
    apply (connected_method _ c K F); [|exact Hc].
    intros Hr. eapply gated_connected. unfold initialize. now apply gated_bind.
  - apply (connected_method _ c
             (keeps_didOpen settings stable_settings nv (λ _ _, eq_refl))
             (finds_didOpen nv)); [|exact Hc].
    intros Hr. unfold textDocument_didOpen. now apply quiet_connected.
  - apply (connected_method _ c
             (keeps_didChange settings stable_settings nv (λ _ _, eq_refl))
             (finds_didChange nv)); [|exact Hc].
    intros Hr. unfold textDocument_didChange. now apply quiet_connected.
  - destruct (keeps_requests settings stable_settings nv [])
      as (_ & _ & _ & _ & _ & _ & _ & _ & K).
    destruct (finds_requests nv []) as (_ & _ & _ & _ & _ & _ & _ & _ & F).
    apply (connected_method _ c K F); [|exact Hc].
    intros Hr. unfold textDocument_didSave. now apply quiet_connected.
  - apply (connected_method _ c
             (keeps_didClose settings stable_settings nv (λ _ _, eq_refl) args)
             (finds_didClose nv args)); [|exact Hc].
    intros Hr. eapply gated_connected. unfold textDocument_didClose. now apply gated_bind.
  - destruct (keeps_requests settings stable_settings nv args) as (_ & K & _).
    destruct (finds_requests nv args) as (_ & F & _).
    apply (connected_method _ c K F); [|exact Hc].
    intros Hr. eapply gated_connected. unfold textDocument_hover. now apply gated_bind.
  - destruct (keeps_requests settings stable_settings nv args) as (_ & _ & K & _).
    destruct (finds_requests nv args) as (_ & _ & F & _).
    apply (connected_method _ c K F); [|exact Hc].
    intros Hr. eapply gated_connected. unfold textDocument_definition. now apply gated_bind.
  - destruct (keeps_requests settings stable_settings nv args) as (_ & _ & _ & K & _).
    destruct (finds_requests nv args) as (_ & _ & _ & F & _).
    apply (connected_method _ c K F); [|exact Hc].
    intros Hr. eapply gated_connected. unfold textDocument_rename. now apply gated_bind.
  - destruct (keeps_requests settings stable_settings nv args)
      as (_ & _ & _ & _ & K & _).
    destruct (finds_requests nv args) as (_ & _ & _ & _ & F & _).
    apply (connected_method _ c K F); [|exact Hc].
    intros Hr. eapply gated_connected. unfold textDocument_documentSymbol. now apply gated_bind.
  - destruct (keeps_requests settings stable_settings nv args)
      as (_ & _ & _ & _ & _ & K & _).
    destruct (finds_requests nv args) as (_ & _ & _ & _ & _ & F & _).
    apply (connected_method _ c K F); [|exact Hc].
    intros Hr. eapply gated_connected. unfold workspace_symbol. now apply gated_bind.
  - destruct (keeps_requests settings stable_settings nv args)
      as (_ & _ & _ & _ & _ & _ & K & _).
    destruct (finds_requests nv args) as (_ & _ & _ & _ & _ & _ & F & _).
    apply (connected_method _ c K F); [|exact Hc].
    intros Hr. eapply gated_connected. unfold textDocument_completion. now apply gated_bind.
  - pose (nv := {| buffer_name := ""; filetype := ""; getline := [];
                   getpos := (0, 0, 0, 0); loaded_fzf := 0; input := "" |}).
    destruct (keeps_requests settings stable_settings nv args)
      as (_ & _ & _ & _ & _ & _ & _ & K & _).
    destruct (finds_requests nv args) as (_ & _ & _ & _ & _ & _ & _ & F & _).
    apply (connected_method _ c K F); [|exact Hc].
    intros Hr. eapply gated_connected. unfold exit. now apply gated_bind.
  - simpl. split; [|discriminate]. destruct (running c) eqn:Hr; [|exact Hc].
    intros Hr'. unfold running in Hr'. simpl in Hr'. discriminate.
Qed.

Lemma connected_history (evs : list Event) (c : Client) :
  connected c →
  connected (snd (history evs c)) ∧ ¬ In (AttributeError "rpc") (fst (history evs c)).
Proof.
  revert c; induction evs as [|ev evs IH]; intros c Hc; simpl; [tauto|].
  destruct (connected_happen ev c Hc) as [Hc1 Hne].
  destruct (happen ev c) as [e c1]. simpl in *.
  destruct (IH c1 Hc1) as [Hc2 Hnot]. destruct (history evs c1) as [es c2].
  simpl in *. split; [exact Hc2|].
  destruct e as [x|]; [|exact Hnot]. simpl. intros [->|H]; [now apply Hne|tauto].
Qed.

(** X21. Whatever the editor calls and in whatever order, and whenever the
    server process exits, from the client as [__init__] makes it: a client
    that runs has its correlator, so that none of the calls fails with
    [AttributeError] for want of [self.rpc]. *)
Theorem X21_rpc_is_there_when_asked_for (serverCommands : list (string * Value))
    (evs : list Event) :
  let r := history evs (init serverCommands) in
  connected (snd r) ∧ ¬ In (AttributeError "rpc") (fst r).
Proof. apply connected_history. intros Hr. discriminate. Qed.

End Histories.

(** ** Positions between the editor and the protocol *)

Section Positions.
Import LanguageClient Frame Responses.
Context `{U : Util} `{R : Runtime}.

Lemma symbol_entries_inv (symbols : list Value) (source : list string)
    (c c' : Client) :
  symbol_entries symbols c = (Return source, c') →
  c' = c ∧ Forall2 (λ sb e, symbol_entry sb c = (Return e, c)) symbols source.
Proof.
  revert source c'; induction symbols as [|sb l IH]; intros source c' H.
  - injection H as <- <-. split; [reflexivity|constructor].
  - cbn [symbol_entries] in H. bind_inv H.
    pose proof (pure_inv _ _ _ _ (pure_symbol_entry sb) H0) as ->.
    bind_inv H. apply IH in H1 as [-> Hl]. injection H as <- <-.
    split; [reflexivity|]. now constructor.
Qed.

(** X22. When the handler of the document symbols returns, it has queued
    the fzf command over one entry per symbol, in the order of the symbols,
    and then the feedkeys call, and nothing else. *)
Theorem X22_one_entry_per_symbol (symbols : list Value) (c c' : Client) :
  handleTextDocumentDocumentSymbolResponse (VList symbols) c = (Return tt, c') →
  ∃ source,
    Forall2 (λ sb e, symbol_entry sb c = (Return e, c)) symbols source
    ∧ c' = queued
             [AsyncCommand
                ("call fzf#run(fzf#wrap({    'source': "
                   ++ dumps (VList (map VStr source))
                   ++ ",    'sink': function('LanguageClient#FZFSinkDocumentSymbol')    }))");
              NvimCall "feedkeys"] c.
Proof.
  unfold handleTextDocumentDocumentSymbolResponse. intros H.
  bind_inv H. injection H0 as <- <-.
  bind_inv H. apply symbol_entries_inv in H0 as [-> Hsource].
  exists a. split; [exact Hsource|].
  bind_inv H. unfold asyncCommand in H0. rewrite nvim_queued in H0.
  injection H0 as _ <-. rewrite nvim_queued in H. injection H as <-.
  now rewrite queued_queued.
Qed.

(** X23. Positions go out counted from 0 and come back counted from 1: when
    the first definition in a response starts at the position that
    [getArgs] takes from the cursor, the jump that is queued is the jump to
    the line and the character of the cursor as the editor counts them. *)
Theorem X23_definition_at_the_cursor (nv : Nvim) (defn : Value) (rest : list Value)
    (u range start : Value) (path : string) (c : Client) :
  field "uri" defn = Some u →
  uriToPath u = inr path →
  field "range" defn = Some range →
  field "start" range = Some start →
  field "line" start = Some (Args.default_arg nv "line") →
  field "character" start = Some (Args.default_arg nv "character") →
  let '(_, line, character, _) := getpos nv in
  editor (snd (handleTextDocumentDefinitionResponse (VList (defn :: rest)) c))
  = editor c ++ [AsyncCommand ("edit " ++ path);
                 AsyncCommand (goto line character)].
Proof.
  intros Hu Hpath Hrange Hstart Hl Hch. unfold Args.default_arg in Hl, Hch.
  destruct (getpos nv) as [[[o1 line] character] o2]. simpl in Hl, Hch.
  pose proof (λ c0, start_position_ints defn range start (line - 1) (character - 1)
                      c0 Hrange Hstart Hl Hch) as Hpos.
  unfold field in Hu. destruct defn as [| | | | |dd]; try discriminate.
  unfold handleTextDocumentDefinitionResponse, bind, path_of, ret.
  destruct rest as [|d2 rest]; simpl; rewrite Hu; simpl; rewrite Hpath; simpl;
    rewrite Hpos; simpl;
    replace (line - 1 + 1) with line by lia;
    replace (character - 1 + 1) with character by lia;
    now rewrite <- app_assoc.
Qed.

End Positions.

Section RenameAndBack.
Import LanguageClient Frame Responses.
Context `{U : Util} `{R : Runtime}.


End RenameAndBack.

(** ** Scenarios for the further properties *)

(** The keys of a hover, for a caller that gave the line only. *)
Lemma X1_line_given :
  let args := [VDict [("line", VInt 7)]] in
  let keys := ["uri"; "line"; "character"; "cb"]%list in
  Args.first_arg args = VDict [("line", VInt 7)]
  ∧ Args.line_first false keys = true
  ∧ @LanguageClient.getArgs Sample.util Examples.nv args keys Sample.started
    = (LanguageClient.Return [VStr "file:///a.py"; VInt 7; VInt 7; VNone],
       Sample.started).
Proof.
  intros args keys.
  assert (Args.first_arg args = VDict [("line", VInt 7)]) as H1 by reflexivity.
  assert (Args.line_first false keys = true) as H2 by reflexivity.
  split; [exact H1|]. split; [exact H2|].
  exact (@X1_getArgs_values Sample.util Examples.nv args _ keys Sample.started H1 H2).
Defined.

(** The character asked for alone, and given by the caller. *)
Lemma X2_character_alone :
  let args := [VDict [("character", VInt 3)]] in
  Args.first_arg args = VDict [("character", VInt 3)]
  ∧ Args.line_first false ["character"] = false
  ∧ @LanguageClient.getArgs Sample.util Examples.nv args ["character"] Sample.started
    = (LanguageClient.Raise IndexError, Sample.started).
Proof.
  intros args.
  assert (Args.first_arg args = VDict [("character", VInt 3)]) as H1 by reflexivity.
  assert (Args.line_first false ["character"] = false) as H2 by reflexivity.
  split; [exact H1|]. split; [exact H2|].
  exact (@X2_getArgs_character_first Sample.util Examples.nv args _ ["character"]
           Sample.started H1 H2).
Defined.

(** A uri passed as it is, not in a dict. *)
Lemma X3_uri_not_in_a_dict :
  let args := [VStr "file:///a.py"] in
  Args.is_dict (Args.first_arg args) = false
  ∧ ["uri"] ≠ []
  ∧ @LanguageClient.getArgs Sample.util Examples.nv args ["uri"] Sample.started
    = (LanguageClient.Raise (AttributeError "get"), Sample.started).
Proof.
  intros args.
  assert (Args.is_dict (Args.first_arg args) = false) as H1 by reflexivity.
  assert (["uri"] ≠ []) as H2 by discriminate.
  split; [exact H1|]. split; [exact H2|].
  exact (@X3_getArgs_not_a_dict Sample.util Examples.nv args ["uri"]
           Sample.started H1 H2).
Defined.

(** Opening and closing a.py on a client that tracks nothing. *)
Lemma X4_open_and_close :
  LanguageClient.running Sample.started = true
  ∧ LanguageClient.filetype Sample.nv ≠ ""
  ∧ is_Some (assoc (LanguageClient.filetype Sample.nv)
               (LanguageClient.serverCommands Sample.started))
  ∧ LanguageClient.textDocuments Sample.started !! "file:///a.py" = None
  ∧ LanguageClient.textDocuments
      (snd (@LanguageClient.textDocument_didClose Sample.util Sample.nv []
              (snd (@LanguageClient.textDocument_didOpen Sample.util Sample.nv
                      Sample.started))))
    = LanguageClient.textDocuments Sample.started.
Proof.
  assert (LanguageClient.running Sample.started = true) as H1 by reflexivity.
  assert (LanguageClient.filetype Sample.nv ≠ "") as H2 by discriminate.
  assert (is_Some (assoc (LanguageClient.filetype Sample.nv)
                     (LanguageClient.serverCommands Sample.started)))
    as H3 by (eexists; reflexivity).
  assert (LanguageClient.textDocuments Sample.started
            !! @LanguageClient.pathToURI Sample.util
                 (LanguageClient.buffer_name Sample.nv) = None)
    as H4 by (vm_compute; reflexivity).
  split; [exact H1|]. split; [exact H2|]. split; [exact H3|]. split; [exact H4|].
  exact (@X4_open_close_round_trip Sample.util Sample.nv Sample.started H1 H2 H3 H4).
Defined.

(** Closing a.py twice on the client that tracks it. *)
Lemma X5_second_close_raises :
  let c1 := snd (@LanguageClient.textDocument_didClose Sample.util Sample.nv []
                   Sample.tracking) in
  LanguageClient.running Sample.tracking = true
  ∧ fst (@LanguageClient.getArgs Sample.util Sample.nv [] ["uri"] Sample.tracking)
    = LanguageClient.Return [VStr "file:///a.py"]
  ∧ LanguageClient.textDocuments c1 !! "file:///a.py" = None
  ∧ fst (@LanguageClient.textDocument_didClose Sample.util Sample.nv [] c1)
    = LanguageClient.Raise (KeyError (VStr "file:///a.py")).
Proof.
  intros c1.
  assert (LanguageClient.running Sample.tracking = true) as H1 by reflexivity.
  assert (fst (@LanguageClient.getArgs Sample.util Sample.nv [] ["uri"]
                 Sample.tracking)
          = LanguageClient.Return [VStr "file:///a.py"]) as H2 by reflexivity.
  split; [exact H1|]. split; [exact H2|].
  destruct (@X5_close_twice Sample.util Sample.nv [] Sample.tracking
              "file:///a.py" H1 H2) as (Hnone & Hraise & _).
  split; [exact Hnone|exact Hraise].
Defined.

(** A rename without a new name asks the user for it. *)
Lemma X8_rename_asks :
  LanguageClient.running Sample.started = true
  ∧ Args.first_arg [] = VDict []
  ∧ LanguageClient.editor
      (snd (@LanguageClient.textDocument_rename Sample.util Sample.nv []
              Sample.started))
    = [LanguageClient.NvimCall "inputsave"; LanguageClient.NvimCall "input";
       LanguageClient.NvimCall "inputrestore"].
Proof.
  assert (LanguageClient.running Sample.started = true) as H1 by reflexivity.
  assert (Args.first_arg [] = VDict []) as H2 by reflexivity.
  split; [exact H1|]. split; [exact H2|].
  exact (@X8_rename_prompts Sample.util Sample.nv [] [] Sample.started H1 H2).
Defined.

(** A hover with a plain string and a marked one. *)
Lemma X11_two_marked_strings :
  assoc "contents" Examples.hover
  = Some (VList [VStr "def f";
                 VDict [("language", VStr "python"); ("value", VStr "(x)")]])
  ∧ Forall2 Responses.marked
      [VStr "def f"; VDict [("language", VStr "python"); ("value", VStr "(x)")]]
      ["def f"; "(x)"]
  ∧ LanguageClient.editor
      (snd (@Responses.handleTextDocumentHoverResponse Sample.util
              (VDict Examples.hover) Sample.started))
    = [LanguageClient.AsyncCommand "echo 'def f(x)'"].
Proof.
  assert (assoc "contents" Examples.hover
          = Some (VList [VStr "def f";
                         VDict [("language", VStr "python"); ("value", VStr "(x)")]]))
    as H1 by reflexivity.
  assert (Forall2 Responses.marked
            [VStr "def f"; VDict [("language", VStr "python"); ("value", VStr "(x)")]]
            ["def f"; "(x)"]) as H2.
  { constructor; [left; reflexivity|]. constructor; [|constructor].
    right. eexists. split; reflexivity. }
  split; [exact H1|]. split; [exact H2|].
  now rewrite (@X11_hover_echoes_the_texts Sample.util Examples.hover _ _
                 Sample.started H1 H2).
Defined.

(** A hover with one plain string, alone and in a list. *)
Lemma X12_one_string :
  let d := [("contents", VStr "def f")] in
  let d' := [("contents", VList [VStr "def f"])] in
  assoc "contents" d = Some (VStr "def f")
  ∧ assoc "contents" d' = Some (VList [VStr "def f"])
  ∧ Responses.is_list (VStr "def f") = false
  ∧ @Responses.handleTextDocumentHoverResponse Sample.util (VDict d) Sample.started
    = @Responses.handleTextDocumentHoverResponse Sample.util (VDict d') Sample.started.
Proof.
  intros d d'.
  assert (assoc "contents" d = Some (VStr "def f")) as H1 by reflexivity.
  assert (assoc "contents" d' = Some (VList [VStr "def f"])) as H2 by reflexivity.
  assert (Responses.is_list (VStr "def f") = false) as H3 by reflexivity.
  split; [exact H1|]. split; [exact H2|]. split; [exact H3|].
  exact (@X12_hover_one_or_a_list Sample.util d d' _ Sample.started H1 H2 H3).
Defined.

(** Two definitions: the jump goes to the first, line 42, character 8. *)
Lemma X13_two_definitions :
  let defn := Examples.location "file:///b.py" 41 7 in
  let rest := [Examples.location "file:///c.py" 1 1] in
  field "uri" defn = Some (VStr "file:///b.py")
  ∧ @Responses.uriToPath Examples.runtime (VStr "file:///b.py") = inr "file:///b.py"
  ∧ field "range" defn
    = Some (VDict [("start", Examples.position 41 7);
                   ("end", Examples.position 41 8)])
  ∧ field "start" (VDict [("start", Examples.position 41 7);
                          ("end", Examples.position 41 8)])
    = Some (Examples.position 41 7)
  ∧ field "line" (Examples.position 41 7) = Some (VInt 41)
  ∧ field "character" (Examples.position 41 7) = Some (VInt 7)
  ∧ LanguageClient.editor
      (snd (@Responses.handleTextDocumentDefinitionResponse Examples.runtime
              (VList (defn :: rest)) Sample.started))
    = [LanguageClient.AsyncCommand "edit file:///b.py";
       LanguageClient.AsyncCommand "normal! 42G8|"].
Proof.
  intros defn rest.
  repeat (split; [reflexivity|]).
  now rewrite (@X13_definition_goes_to_the_first Examples.runtime defn rest
                 _ _ _ _ 41 7 Sample.started eq_refl eq_refl eq_refl eq_refl
                 eq_refl eq_refl).
Defined.

(** A definition with a uri and nothing else. *)
Lemma X14_uri_only :
  let defn := VDict [("uri", VStr "file:///b.py")] in
  field "uri" defn = Some (VStr "file:///b.py")
  ∧ @Responses.uriToPath Examples.runtime (VStr "file:///b.py") = inr "file:///b.py"
  ∧ field "range" defn = None
  ∧ LanguageClient.editor
      (snd (@Responses.handleTextDocumentDefinitionResponse Examples.runtime
              (VList [defn]) Sample.started))
    = [LanguageClient.AsyncCommand "edit file:///b.py"]
  ∧ fst (@Responses.handleTextDocumentDefinitionResponse Examples.runtime
           (VList [defn]) Sample.started)
    = LanguageClient.Raise (KeyError (VStr "range")).
Proof.
  intros defn.
  repeat (split; [reflexivity|]).
  now rewrite (@X14_definition_without_range Examples.runtime defn []
                 _ _ Sample.started eq_refl eq_refl eq_refl).
Defined.


(** Two diagnostics of which the second has no message. *)
Lemma X16_second_without_message :
  let good := [VDict [("message", VStr "unused variable")]] in
  let rest := [VDict [("severity", VInt 1)]] in
  let r := @LanguageClient.textDocument_publishDiagnostics Sample.util
             (VDict Examples.diagnostics) Sample.started in
  assoc "diagnostics" Examples.diagnostics = Some (VList (good ++ rest))
  ∧ Forall2 (λ v m, Responses.diagnostic_text v = Some m) good ["unused variable"]
  ∧ Responses.diagnostic_text (VDict [("severity", VInt 1)]) = None
  ∧ LanguageClient.editor (snd r)
    = [LanguageClient.AsyncCommand "echo 'unused variable'"]
  ∧ ∃ e, fst r = LanguageClient.Raise e.
Proof.
  intros good rest r.
  assert (assoc "diagnostics" Examples.diagnostics = Some (VList (good ++ rest)))
    as H1 by reflexivity.
  assert (Forall2 (λ v m, Responses.diagnostic_text v = Some m) good
            ["unused variable"]) as H2 by (repeat constructor).
  assert (Responses.diagnostic_text (VDict [("severity", VInt 1)]) = None)
    as H3 by reflexivity.
  split; [exact H1|]. split; [exact H2|]. split; [exact H3|].
  destruct (@X16_diagnostics_up_to_the_first_bad Sample.util Examples.diagnostics
              good rest _ Sample.started H1 H2 H3) as [Hs He].
  split; [|exact He]. fold r in Hs. now rewrite Hs.
Defined.

(** A client object that had an attribute under the name of the
    diagnostics notification as it comes, with its slash, would handle the
    notification no differently; and a method with no slash that is not in
    the table is warned about under its own name. *)
Lemma X17_slash_in_the_table :
  let attributes' (name : string) : option (Value → LanguageClient.M unit) :=
    if String.eqb name "textDocument/publishDiagnostics"
    then Some (λ _, LanguageClient.raise TypeError)
    else Sample.attributes name in
  let message := VDict [("jsonrpc", VStr "2.0"); ("method", VStr "shutdown")] in
  (∀ name, ¬ In "/"%char (list_ascii_of_string name) →
           Sample.attributes name = attributes' name)
  ∧ LanguageClient.handleRequestOrNotification Sample.attributes
      (VDict Sample.diagnostics) Sample.started
    = LanguageClient.handleRequestOrNotification attributes'
        (VDict Sample.diagnostics) Sample.started
  ∧ LanguageClient.log
      (snd (LanguageClient.handleRequestOrNotification Sample.attributes
              message Sample.started))
    = [LanguageClient.Warn "no handler implemented for shutdown"].
Proof.
  intros attributes' message.
  assert (∀ name, ¬ In "/"%char (list_ascii_of_string name) →
                  Sample.attributes name = attributes' name) as H1.
  { intros name Hname. unfold attributes'.
    destruct (String.eqb_spec name "textDocument/publishDiagnostics") as [->|_];
      [|reflexivity].
    exfalso. apply Hname. vm_compute. tauto. }
  split; [exact H1|]. split.
  - exact (proj1 (X17_no_lookup_with_a_slash Sample.attributes attributes'
                    (VDict Sample.diagnostics) Sample.started H1)).
  - rewrite (proj2 (X17_no_lookup_with_a_slash Sample.attributes attributes'
                      message Sample.started H1)
               "shutdown" eq_refl).
    + reflexivity.
    + vm_compute. intuition discriminate.
    + reflexivity.
Defined.

(** A start for a python buffer whose server stays alive. *)
Lemma X19_start_of_a_python_server :
  let r := @Startup.start Sample.util Sample.nv Examples.lives Sample.stopped in
  LanguageClient.running Sample.stopped = false
  ∧ LanguageClient.filetype Sample.nv ≠ ""
  ∧ assoc (LanguageClient.filetype Sample.nv)
      (LanguageClient.serverCommands Sample.stopped)
    = Some (VList [VStr "pyls"])
  ∧ Examples.lives (VList [VStr "pyls"])
    = inr ({| LanguageClient.poll := None |}, "[]"%string)
  ∧ fst r = LanguageClient.Return tt
  ∧ LanguageClient.textDocuments (snd r)
    = {[ "file:///a.py" :=
           TextDocumentItem.new "file:///a.py" "python" Sample.text_aX ]}
  ∧ ∃ q, LanguageClient.rpc (snd r) = Some q.
Proof.
  intros r.
  assert (LanguageClient.running Sample.stopped = false) as H1 by reflexivity.
  assert (LanguageClient.filetype Sample.nv ≠ "") as H2 by discriminate.
  split; [exact H1|]. split; [exact H2|]. split; [reflexivity|].
  split; [reflexivity|].
  destruct (@X19_start_tracks_the_buffer Sample.util Sample.nv Examples.lives
              Sample.stopped _ _ _ H1 H2 eq_refl eq_refl eq_refl)
    as (Hret & _ & Hdocs & Hrpc).
  split; [exact Hret|]. split; [exact Hdocs|]. eexists. exact Hrpc.
Defined.

(** A start whose process has exited after the wait, and a start on a
    client that runs. *)
Lemma X20_start_of_a_broken_server :
  let r := @Startup.start Sample.util Sample.nv Examples.dies Sample.stopped in
  LanguageClient.running Sample.stopped = false
  ∧ LanguageClient.running Sample.started = true
  ∧ LanguageClient.running (snd r) = false
  ∧ LanguageClient.rpc (snd r) = None
  ∧ @Startup.start Sample.util Sample.nv Examples.lives Sample.started
    = @LanguageClient.asyncEcho Sample.util "Language client has already started."
        Sample.started.
Proof.
  intros r.
  assert (LanguageClient.running Sample.stopped = false) as H1 by reflexivity.
  assert (LanguageClient.running Sample.started = true) as H2 by reflexivity.
  split; [exact H1|]. split; [exact H2|].
  destruct (@X20_start_without_a_live_process Sample.util Sample.nv Examples.dies
              Sample.stopped) as [_ Hdead].
  destruct (Hdead H1) as (Hr & Hrpc & _).
  { right. right. exists (VList [VStr "pyls"]), {| LanguageClient.poll := Some 1 |},
      "['no such file']"%string, 1. repeat split. }
  split; [exact Hr|]. split; [exact Hrpc|].
  exact (proj1 (@X20_start_without_a_live_process Sample.util Sample.nv
                  Examples.lives Sample.started) H2).
Defined.

(** The list of one symbol. *)
Lemma X22_one_symbol :
  let r := @Responses.handleTextDocumentDocumentSymbolResponse Examples.runtime
             (VList [Examples.symbol]) Sample.started in
  r = (LanguageClient.Return tt, snd r)
  ∧ ∃ source,
      Forall2 (λ sb e, @Responses.symbol_entry Examples.runtime sb Sample.started
                       = (LanguageClient.Return e, Sample.started))
        [Examples.symbol] source
      ∧ length source = 1%nat.
Proof.
  intros r.
  assert (r = (LanguageClient.Return tt, snd r)) as H1 by reflexivity.
  split; [exact H1|].
  destruct (@X22_one_entry_per_symbol Examples.runtime [Examples.symbol]
              Sample.started (snd r) H1) as (source & Hsource & _).
  exists source. split; [exact Hsource|].
  apply Forall2_length in Hsource. now rewrite <- Hsource.
Defined.

(** A definition at the cursor of the buffer, line 42, character 8. *)
Lemma X23_definition_where_the_cursor_is :
  let defn := Examples.location "file:///b.py" 41 7 in
  field "line" (Examples.position 41 7) = Some (Args.default_arg (U := Sample.util) Examples.nv "line")
  ∧ field "character" (Examples.position 41 7)
    = Some (Args.default_arg (U := Sample.util) Examples.nv "character")
  ∧ LanguageClient.editor
      (snd (@Responses.handleTextDocumentDefinitionResponse Examples.runtime
              (VList [defn]) Sample.started))
    = [LanguageClient.AsyncCommand "edit file:///b.py";
       LanguageClient.AsyncCommand (Responses.goto 42 8)].
Proof.
  intros defn. split; [reflexivity|]. split; [reflexivity|].
  exact (@X23_definition_at_the_cursor Sample.util Examples.runtime Examples.nv defn []
           _ _ _ _ Sample.started eq_refl eq_refl eq_refl eq_refl eq_refl eq_refl).
Defined.

